(** * Shallow embedding of the T-Deck LoRa link layer

    Two layers of the firmware are modelled:
    - [Hal]: [LoRaModule] of src/src/hal/lora.{h,cpp} (5-byte header,
      8-bit addresses, flags, reliable send with ACK wait);
    - [Comms]: [LoRaManager] of src/src/comms/lora.{h,cpp} (8-byte header,
      16-bit device ids, message types, configuration persistence).

    The arduino-LoRa library used by both is external; only the part of
    its interface the code relies on is modelled: the receive FIFO of the
    current packet ([available], [read], [read] answering -1 once the packet
    is exhausted), the log of written frames, and the results the radio
    reports ([endPacket], [setFrequency]) as inputs. Floating point values
    (frequency, bandwidth, SNR) are modelled as integers: the legal
    bandwidths are all integral numbers of Hz. *)

From Stdlib Require Import ZArith List Bool Lia.
Import ListNotations.
Open Scope Z_scope.

(** Conversion to [uint8_t] (assignment of an [int] to a [uint8_t]). *)
Definition u8 (x : Z) : Z := x mod 256.

(** Conversion to [uint16_t]. *)
Definition u16 (x : Z) : Z := x mod 65536.

(** A byte value. *)
Definition is_byte (x : Z) : Prop := 0 <= x < 256.

(** The FIFO of the packet currently being read, as the radio library
    exposes it: [LoRa.available()] is the number of unread bytes and
    [LoRa.read()] pops one byte, or answers -1 when none is left.
    [past_end] counts the reads issued on an exhausted FIFO. *)
Record Fifo := mkFifo { fifo_bytes : list Z; past_end : nat }.

Definition LoRa_available (f : Fifo) : Z := Z.of_nat (List.length (fifo_bytes f)).

Definition LoRa_read (f : Fifo) : Z * Fifo :=
  match fifo_bytes f with
  | [] => (-1, mkFifo [] (S (past_end f)))
  | b :: r => (b, mkFifo r (past_end f))
  end.

Definition fifo_of (bs : list Z) : Fifo := mkFifo bs 0.

Module Hal.

(** ** Types of src/src/hal/lora.h *)

Record LoRaPacket := mkPacket {
  destination : Z;
  source : Z;
  id : Z;
  flags : Z;
  length : Z;
  payload : list Z
}.

Inductive LoRaMode := STANDBY | SLEEP | TRANSMIT | RECEIVE | CAD.

Inductive LoRaStatus := OK | ERROR | TIMEOUT | BUSY | INVALID_PARAM | NO_ACK.

Definition LORA_FLAG_ACK := 1.
Definition LORA_FLAG_RELIABLE := 2.
Definition LORA_FLAG_BROADCAST := 4.
Definition LORA_FLAG_ENCRYPTED := 8.
Definition LORA_FLAG_FRAGMENT := 16.
Definition LORA_FLAG_LAST_FRAG := 32.

(** [sizeof(packet.payload)] *)
Definition PAYLOAD_SIZE := 240.

Record LoRaModule := mkModule {
  _available : bool;
  _frequency : Z;
  _bandwidth : Z;
  _spreadingFactor : Z;
  _codingRate : Z;
  _syncWord : Z;
  _txPower : Z;
  _mode : LoRaMode;
  _nodeAddress : Z;
  _timeout : Z;
  _packetId : Z
}.

Definition set_bandwidth_field (m : LoRaModule) (v : Z) : LoRaModule :=
  mkModule (_available m) (_frequency m) v (_spreadingFactor m) (_codingRate m)
    (_syncWord m) (_txPower m) (_mode m) (_nodeAddress m) (_timeout m) (_packetId m).
Definition set_spreadingFactor_field (m : LoRaModule) (v : Z) : LoRaModule :=
  mkModule (_available m) (_frequency m) (_bandwidth m) v (_codingRate m)
    (_syncWord m) (_txPower m) (_mode m) (_nodeAddress m) (_timeout m) (_packetId m).
Definition set_codingRate_field (m : LoRaModule) (v : Z) : LoRaModule :=
  mkModule (_available m) (_frequency m) (_bandwidth m) (_spreadingFactor m) v
    (_syncWord m) (_txPower m) (_mode m) (_nodeAddress m) (_timeout m) (_packetId m).
Definition set_txPower_field (m : LoRaModule) (v : Z) : LoRaModule :=
  mkModule (_available m) (_frequency m) (_bandwidth m) (_spreadingFactor m)
    (_codingRate m) (_syncWord m) v (_mode m) (_nodeAddress m) (_timeout m) (_packetId m).
Definition set_mode_field (m : LoRaModule) (v : LoRaMode) : LoRaModule :=
  mkModule (_available m) (_frequency m) (_bandwidth m) (_spreadingFactor m)
    (_codingRate m) (_syncWord m) (_txPower m) v (_nodeAddress m) (_timeout m) (_packetId m).
Definition set_packetId_field (m : LoRaModule) (v : Z) : LoRaModule :=
  mkModule (_available m) (_frequency m) (_bandwidth m) (_spreadingFactor m)
    (_codingRate m) (_syncWord m) (_txPower m) (_mode m) (_nodeAddress m) (_timeout m) v.

(** Getters of the class. *)
Definition isAvailable (m : LoRaModule) : bool := _available m.
Definition getFrequency (m : LoRaModule) : Z := _frequency m.
Definition getMode (m : LoRaModule) : LoRaMode := _mode m.
Definition getNodeAddress (m : LoRaModule) : Z := _nodeAddress m.
Definition getTimeout (m : LoRaModule) : Z := _timeout m.

(** ** Configuration setters (lora.cpp 107-200) *)

(** Bandwidths accepted by [setBandwidth], in Hz. *)
Definition legal_bandwidths : list Z :=
  [7800; 10400; 15600; 20800; 31250; 41700; 62500; 125000; 250000; 500000].

Definition setBandwidth (m : LoRaModule) (bandwidth : Z) : bool * LoRaModule :=
  if negb (_available m) then (false, m) else
  let valid := existsb (Z.eqb bandwidth) legal_bandwidths in
  if negb valid then (false, m) else
  (true, set_bandwidth_field m bandwidth).

Definition setSpreadingFactor (m : LoRaModule) (spreadingFactor : Z) : bool * LoRaModule :=
  if negb (_available m) then (false, m) else
  if (spreadingFactor <? 6) || (spreadingFactor >? 12) then (false, m) else
  (true, set_spreadingFactor_field m spreadingFactor).

Definition setCodingRate (m : LoRaModule) (codingRate : Z) : bool * LoRaModule :=
  if negb (_available m) then (false, m) else
  if (codingRate <? 5) || (codingRate >? 8) then (false, m) else
  (true, set_codingRate_field m codingRate).

Definition setTxPower (m : LoRaModule) (power : Z) : bool * LoRaModule :=
  if negb (_available m) then (false, m) else
  if (power <? 2) || (power >? 20) then (false, m) else
  (true, set_txPower_field m power).

(** ** Mode state machine (lora.cpp 202-245) *)

Definition setMode (m : LoRaModule) (mode : LoRaMode) : bool * LoRaModule :=
  if negb (_available m) then (false, m) else
  let previousMode := _mode m in
  let m1 := set_mode_field m mode in
  match mode with
  | STANDBY | SLEEP | TRANSMIT | RECEIVE => (true, m1)
  | CAD => (false, set_mode_field m1 previousMode)
  end.

(** [isPacketAvailable] (lora.cpp 263-276), without the library answer:
    the mode side effect only. *)
Definition enter_receive (m : LoRaModule) : LoRaModule :=
  if negb (_available m) then m else
  match _mode m with
  | RECEIVE => m
  | _ => snd (setMode m RECEIVE)
  end.

(** ** Transmit path (lora.cpp 305-388) *)

Definition mode_eqb (a b : LoRaMode) : bool :=
  match a, b with
  | STANDBY, STANDBY | SLEEP, SLEEP | TRANSMIT, TRANSMIT
  | RECEIVE, RECEIVE | CAD, CAD => true
  | _, _ => false
  end.

(** The bytes written between [LoRa.beginPacket()] and [LoRa.endPacket()]:
    the header [destination, source, id, flags, length], then
    [LoRa.write(packet.payload, packet.length)]. *)
Definition encode (p : LoRaPacket) : list Z :=
  [destination p; source p; id p; flags p; length p]
    ++ firstn (Z.to_nat (length p)) (payload p).

(** Lines 311-338 of [sendPacket] on an available module: mode switch,
    source and id stamping, frame written. *)
Definition transmit (m : LoRaModule) (p : LoRaPacket)
  : LoRaModule * LoRaPacket * list Z :=
  let m1 := if mode_eqb (_mode m) TRANSMIT then m else snd (setMode m TRANSMIT) in
  let p1 := mkPacket (destination p) (_nodeAddress m1) (id p) (flags p)
              (length p) (payload p) in
  let '(m2, p2) :=
    if id p1 =? 0 then
      let c := u8 (_packetId m1 + 1) in
      (set_packetId_field m1 c,
       mkPacket (destination p1) (source p1) c (flags p1) (length p1) (payload p1))
    else (m1, p1) in
  (m2, p2, encode p2).

(** ** Receive path (lora.cpp 390-472) *)

(** The payload loop of lines 434-441: each byte is read only after
    [LoRa.available()] reported one. *)
Fixpoint read_payload (n : nat) (f : Fifo) : option (list Z) * Fifo :=
  match n with
  | O => (Some [], f)
  | S n' =>
      if LoRa_available f >? 0 then
        let '(b, f1) := LoRa_read f in
        match read_payload n' f1 with
        | (Some bs, f2) => (Some (u8 b :: bs), f2)
        | (None, f2) => (None, f2)
        end
      else (None, f)
  end.

(** Lines 420-441: header read, length check, payload read. [None] is the
    [LoRaStatus::ERROR] return. *)
Definition decode (f : Fifo) : option LoRaPacket * Fifo :=
  let '(d, f1) := LoRa_read f in
  let '(s, f2) := LoRa_read f1 in
  let '(i, f3) := LoRa_read f2 in
  let '(fl, f4) := LoRa_read f3 in
  let '(l, f5) := LoRa_read f4 in
  let len := u8 l in
  if len >? PAYLOAD_SIZE then (None, f5) else
  match read_payload (Z.to_nat len) f5 with
  | (Some pl, f6) => (Some (mkPacket (u8 d) (u8 s) (u8 i) (u8 fl) len pl), f6)
  | (None, f6) => (None, f6)
  end.

Definition has_flag (fl bit : Z) : bool := negb (Z.land fl bit =? 0).

(** [receivePacket]. [arrival] is the packet [isPacketAvailable()] reports
    within the receive timeout, [None] when none arrives in time. Returns
    the status, the module, the packet read and the frames transmitted. *)
Definition receivePacket (m : LoRaModule) (arrival : option (list Z))
  : LoRaStatus * LoRaModule * option LoRaPacket * list (list Z) :=
  if negb (_available m) then (ERROR, m, None, []) else
  let m1 := enter_receive m in
  match arrival with
  | None => (TIMEOUT, m1, None, [])
  | Some frame =>
      match fst (decode (fifo_of frame)) with
      | None => (ERROR, m1, None, [])
      | Some p =>
          if negb (destination p =? _nodeAddress m1) && negb (destination p =? 255)
          then (OK, m1, Some p, [])
          else if has_flag (flags p) LORA_FLAG_RELIABLE
                  && negb (has_flag (flags p) LORA_FLAG_ACK) then
            let ackPacket := mkPacket (source p) (_nodeAddress m1) (id p)
                               LORA_FLAG_ACK 0 [] in
            (* sendPacket(ackPacket, 100): the module is available and
               ackPacket.flags has no RELIABLE bit, so the call ends after
               the transmission; its status is discarded. *)
            let '(m2, _, fr) := transmit m1 ackPacket in
            (OK, m2, Some p, [fr])
          else (OK, m1, Some p, [])
      end
  end.

(** The ACK test of lines 370-373. *)
Definition ack_matches (m : LoRaModule) (p a : LoRaPacket) : bool :=
  has_flag (flags a) LORA_FLAG_ACK && (id a =? id p)
  && (destination a =? _nodeAddress m) && (source a =? destination p).

(** The ACK wait loop of lines 364-384. Each element of [polls] is the
    clock reading [millis() - startTime] at a loop test together with what
    [isPacketAvailable()] reports at that iteration. *)
Fixpoint ack_wait (m : LoRaModule) (p : LoRaPacket) (eff : Z)
  (polls : list (Z * option (list Z))) : LoRaStatus * LoRaModule * list (list Z) :=
  match polls with
  | [] => (NO_ACK, m, [])
  | (elapsed, obs) :: rest =>
      if elapsed <? eff then
        let m1 := enter_receive m in
        match obs with
        | None => ack_wait m1 p eff rest
        | Some frame =>
            let '(st, m2, ap, sent) := receivePacket m1 (Some frame) in
            let matched :=
              match st, ap with
              | OK, Some a => ack_matches m2 p a
              | _, _ => false
              end in
            if matched then (OK, m2, sent)
            else let '(st', m3, sent') := ack_wait m2 p eff rest in
                 (st', m3, sent ++ sent')
        end
      else (NO_ACK, m, [])
  end.

(** [sendPacket]. [tx_ok] is the result of [LoRa.endPacket()]. Returns the
    status, the module, the caller's packet after the call, and the frames
    transmitted. The wait of [waitForTxReady] only delays and its status is
    not used. *)
Definition sendPacket (m : LoRaModule) (p : LoRaPacket) (timeout : Z)
  (tx_ok : bool) (polls : list (Z * option (list Z)))
  : LoRaStatus * LoRaModule * LoRaPacket * list (list Z) :=
  if negb (_available m) then (ERROR, m, p, []) else
  let '(m1, p1, frame) := transmit m p in
  let effectiveTimeout := if timeout >? 0 then timeout else _timeout m1 in
  if negb tx_ok then (ERROR, m1, p1, [frame]) else
  if negb (has_flag (flags p1) LORA_FLAG_RELIABLE) then (OK, m1, p1, [frame]) else
  let m2 := snd (setMode m1 RECEIVE) in
  let '(st, m3, sent) := ack_wait m2 p1 effectiveTimeout polls in
  (st, m3, p1, frame :: sent).

(** ** Airtime estimate of [waitForTxReady] (lora.cpp 522-550)

    [1000 * (1 << sf) / (bw / 1000)] is computed in floating point and
    truncated to [uint32_t]; here it is the exact quotient, truncated.
    [symbolDuration * 4.25] is likewise truncated. *)
Definition symbolDuration (sf bw : Z) : Z := (1000 * 2 ^ sf * 1000) / bw.

Definition estimatedAirtime (sf bw : Z) : Z :=
  let sd := symbolDuration sf bw in
  let preambleDuration := sd * 8 in
  let headerDuration := (sd * 17) / 4 in
  let payloadSymbols := 8 + (20 * 8) / (4 * sf) in
  let payloadDuration := sd * payloadSymbols in
  preambleDuration + headerDuration + payloadDuration.

Definition waitTime (sf bw timeout : Z) : Z :=
  Z.min (estimatedAirtime sf bw + 50) timeout.

(** The estimate as the spec words it, for comparison: payload symbol count
    [8 + ceil(payloadLen*8 / (4*SF))] of the actual payload length, plus the
    50 ms margin. *)
Definition estimateAirtimeMs_spec (sf bw payloadLen : Z) : Z :=
  let sd := symbolDuration sf bw in
  let payloadSymbols := 8 + (payloadLen * 8 + 4 * sf - 1) / (4 * sf) in
  sd * 8 + (sd * 17) / 4 + sd * payloadSymbols + 50.

(** ** Predicates used in the statements *)

(** A packet as [LoRaPacket] can hold it: byte fields, [length] at most
    [sizeof(payload)], and exactly [length] payload bytes. *)
Definition wf_packet (p : LoRaPacket) : Prop :=
  is_byte (destination p) /\ is_byte (source p) /\ is_byte (id p)
  /\ is_byte (flags p) /\ 0 <= length p <= PAYLOAD_SIZE
  /\ Z.of_nat (List.length (payload p)) = length p /\ Forall is_byte (payload p).

(** A frame written by an automatic acknowledgment. *)
Definition is_ack_frame (fr : list Z) : Prop :=
  exists q, fr = encode q /\ flags q = LORA_FLAG_ACK /\ length q = 0.

(** Some poll made before [eff] elapsed sees a frame that decodes to an
    ACK for [p] addressed to [node]. *)
Fixpoint acked_before (node : Z) (p : LoRaPacket) (eff : Z)
  (polls : list (Z * option (list Z))) : bool :=
  match polls with
  | [] => false
  | (elapsed, obs) :: rest =>
      if elapsed <? eff then
        match obs with
        | Some fr =>
            match fst (decode (fifo_of fr)) with
            | Some a => has_flag (flags a) LORA_FLAG_ACK && (id a =? id p)
                        && (destination a =? node) && (source a =? destination p)
            | None => false
            end
        | None => false
        end || acked_before node p eff rest
      else false
  end.

(** ** Lifecycle and remaining members (lora.cpp 13-105, 170-181, 247-303,
    474-520) *)

Definition set_available_field (m : LoRaModule) (v : bool) : LoRaModule :=
  mkModule v (_frequency m) (_bandwidth m) (_spreadingFactor m) (_codingRate m)
    (_syncWord m) (_txPower m) (_mode m) (_nodeAddress m) (_timeout m) (_packetId m).
Definition set_frequency_field (m : LoRaModule) (v : Z) : LoRaModule :=
  mkModule (_available m) v (_bandwidth m) (_spreadingFactor m) (_codingRate m)
    (_syncWord m) (_txPower m) (_mode m) (_nodeAddress m) (_timeout m) (_packetId m).
Definition set_syncWord_field (m : LoRaModule) (v : Z) : LoRaModule :=
  mkModule (_available m) (_frequency m) (_bandwidth m) (_spreadingFactor m)
    (_codingRate m) v (_txPower m) (_mode m) (_nodeAddress m) (_timeout m) (_packetId m).
Definition set_nodeAddress_field (m : LoRaModule) (v : Z) : LoRaModule :=
  mkModule (_available m) (_frequency m) (_bandwidth m) (_spreadingFactor m)
    (_codingRate m) (_syncWord m) (_txPower m) (_mode m) v (_timeout m) (_packetId m).
Definition set_timeout_field (m : LoRaModule) (v : Z) : LoRaModule :=
  mkModule (_available m) (_frequency m) (_bandwidth m) (_spreadingFactor m)
    (_codingRate m) (_syncWord m) (_txPower m) (_mode m) (_nodeAddress m) v (_packetId m).

(** The constructor [LoRaModule()], with the defaults of config.h
    ([TDECK_LORA_FREQUENCY] 915E6, [TDECK_LORA_BANDWIDTH] 125E3,
    [TDECK_LORA_SPREADING_FACTOR] 7, [TDECK_LORA_CODING_RATE] 5,
    [TDECK_LORA_SYNC_WORD] 0x12). *)
Definition LoRaModule_new : LoRaModule :=
  mkModule false 915000000 125000 7 5 18 17 STANDBY 1 1000 0.

(** [begin]. [begin_ok] is the answer of [LoRa.begin(_frequency)] inside
    [initLoRa]; the SPI and pin set-up keep no state of the module. *)
Definition begin (m : LoRaModule) (frequency : Z) (begin_ok : bool) : bool * LoRaModule :=
  let m1 := set_frequency_field m frequency in
  if negb begin_ok then (false, set_available_field m1 false) else
  let m2 := set_available_field m1 true in
  (true, snd (setMode m2 RECEIVE)).

(** [end] (a keyword of Rocq, hence the underscore). *)
Definition end_ (m : LoRaModule) : LoRaModule :=
  if negb (_available m) then m else
  set_available_field (snd (setMode m SLEEP)) false.

Definition setFrequency (m : LoRaModule) (frequency : Z) : bool * LoRaModule :=
  if negb (_available m) then (false, m) else (true, set_frequency_field m frequency).

Definition setSyncWord (m : LoRaModule) (syncWord : Z) : bool * LoRaModule :=
  if negb (_available m) then (false, m) else (true, set_syncWord_field m syncWord).

Definition setNodeAddress (m : LoRaModule) (address : Z) : LoRaModule :=
  set_nodeAddress_field m address.

Definition setTimeout (m : LoRaModule) (timeout : Z) : LoRaModule :=
  set_timeout_field m timeout.

(** [isPacketAvailable]; [parsed] is the answer of [LoRa.parsePacket()]. *)
Definition isPacketAvailable (m : LoRaModule) (parsed : Z) : bool * LoRaModule :=
  if negb (_available m) then (false, m) else (parsed >? 0, enter_receive m).

(** [getPacketRssi], [getPacketSnr], [getPacketFrequencyError]; [radio] is
    what the library reports for the last packet. *)
Definition getPacketRssi (m : LoRaModule) (radio : Z) : Z :=
  if negb (_available m) then -150 else radio.
Definition getPacketSnr (m : LoRaModule) (radio : Z) : Z :=
  if negb (_available m) then -20 else radio.
Definition getPacketFrequencyError (m : LoRaModule) (radio : Z) : Z :=
  if negb (_available m) then 0 else radio.

End Hal.

Module Comms.

(** ** Types of src/src/comms/lora.h *)

(** [LORA_MAX_PACKET_SIZE] *)
Definition LORA_MAX_PACKET_SIZE := 256.

Definition LORA_MSG_TEXT := 0.
Definition LORA_MSG_LOCATION := 1.
Definition LORA_MSG_STATUS := 2.
Definition LORA_MSG_COMMAND := 3.
Definition LORA_MSG_ACK := 4.

Record LoRaPacket := mkPacket {
  messageType : Z;
  sourceId : Z;
  destId : Z;
  packetId : Z;
  length : Z;
  payload : list Z
}.

Record LoRaManager := mkManager {
  _initialized : bool;
  _enabled : bool;
  _deviceId : Z;
  _packetCounter : Z;
  _frequency : Z;
  _bandwidth : Z;
  _spreadingFactor : Z;
  _codingRate : Z;
  _syncWord : Z;
  _lastRssi : Z;
  _lastSnr : Z;
  _messageCallback : bool  (** a callback is registered *)
}.

(** The JSON document written by [saveConfig]. *)
Record LoRaConfig := mkConfig {
  cfg_frequency : Z;
  cfg_bandwidth : Z;
  cfg_spreadingFactor : Z;
  cfg_codingRate : Z;
  cfg_syncWord : Z;
  cfg_deviceId : Z;
  cfg_enabled : bool
}.

(** Observable effects: frames written to the radio, settings written to
    the radio, configurations saved to the file system, and invocations of
    the registered message callback. *)
Inductive Event :=
| Sent (frame : list Z)
| SetFrequency (f : Z)
| SetSignalBandwidth (bw : Z)
| SetSpreadingFactor (sf : Z)
| SetCodingRate4 (cr : Z)
| SetSyncWord (sw : Z)
| Saved (c : LoRaConfig)
| Dispatched (p : LoRaPacket).

Definition set_radio_state (mgr : LoRaManager) (f bw sf cr sw : Z) : LoRaManager :=
  mkManager (_initialized mgr) (_enabled mgr) (_deviceId mgr) (_packetCounter mgr)
    f bw sf cr sw (_lastRssi mgr) (_lastSnr mgr) (_messageCallback mgr).

Definition set_signal (mgr : LoRaManager) (rssi snr : Z) : LoRaManager :=
  mkManager (_initialized mgr) (_enabled mgr) (_deviceId mgr) (_packetCounter mgr)
    (_frequency mgr) (_bandwidth mgr) (_spreadingFactor mgr) (_codingRate mgr)
    (_syncWord mgr) rssi snr (_messageCallback mgr).

Definition set_packetCounter (mgr : LoRaManager) (c : Z) : LoRaManager :=
  mkManager (_initialized mgr) (_enabled mgr) (_deviceId mgr) c
    (_frequency mgr) (_bandwidth mgr) (_spreadingFactor mgr) (_codingRate mgr)
    (_syncWord mgr) (_lastRssi mgr) (_lastSnr mgr) (_messageCallback mgr).

(** ** Transmit side (lora.cpp 179-211, 492-515) *)

(** The bytes written by [sendPacket]: 8-byte header, big-endian 16-bit
    ids, then [length] payload bytes. *)
Definition frame_of (p : LoRaPacket) : list Z :=
  [u8 (messageType p);
   u8 (Z.shiftr (sourceId p) 8); u8 (Z.land (sourceId p) 255);
   u8 (Z.shiftr (destId p) 8); u8 (Z.land (destId p) 255);
   u8 (Z.shiftr (packetId p) 8); u8 (Z.land (packetId p) 255);
   u8 (length p)]
  ++ firstn (Z.to_nat (length p)) (payload p).

(** [sendPacket]; [tx_ok] is the result of [LoRa.endPacket()]. *)
Definition sendPacket (mgr : LoRaManager) (p : LoRaPacket) (tx_ok : bool)
  : bool * list Event :=
  if negb (_initialized mgr) || negb (_enabled mgr) then (false, []) else
  (tx_ok, [Sent (frame_of p)]).

(** [createPacket]: the id is the post-incremented 16-bit counter. *)
Definition createPacket (mgr : LoRaManager) (messageType destId : Z)
  (payload : list Z) (length : Z) : LoRaManager * LoRaPacket :=
  (set_packetCounter mgr (u16 (_packetCounter mgr + 1)),
   mkPacket messageType (_deviceId mgr) destId (_packetCounter mgr) length
     (firstn (Z.to_nat length) payload)).

(** [sendAcknowledgment]. The result of [LoRa.endPacket()] is not used by
    its caller, so it is fixed here. *)
Definition sendAcknowledgment (mgr : LoRaManager) (received : LoRaPacket)
  : LoRaManager * list Event :=
  let pl := [Z.land (Z.shiftr (packetId received) 8) 255;
             Z.land (packetId received) 255] in
  let '(mgr1, ackPacket) := createPacket mgr LORA_MSG_ACK (sourceId received) pl 2 in
  (mgr1, snd (sendPacket mgr1 ackPacket true)).

(** ** Receive side (lora.cpp 78-88, 359-489) *)

(** The payload loop of lines 401-404. *)
Fixpoint read_available (n : nat) (f : Fifo) : list Z * Fifo :=
  match n with
  | O => ([], f)
  | S n' =>
      if LoRa_available f >? 0 then
        let '(b, f1) := LoRa_read f in
        let '(bs, f2) := read_available n' f1 in
        (u8 b :: bs, f2)
      else ([], f)
  end.

(** [(LoRa.read() << 8) | LoRa.read()], operands read left to right. *)
Definition read16 (f : Fifo) : Z * Fifo :=
  let '(hi, f1) := LoRa_read f in
  let '(lo, f2) := LoRa_read f1 in
  (u16 (Z.lor (Z.shiftl hi 8) lo), f2).

(** [handleReceivedPacket] on the packet [frame] the radio holds, with the
    signal metrics the radio reports for it. The [switch] on the message
    type only logs (the text case also writes a terminator after the
    payload bytes, outside [length]). *)
Definition handleReceivedPacket (mgr : LoRaManager) (frame : list Z) (rssi snr : Z)
  : LoRaManager * list Event :=
  let f0 := fifo_of frame in
  if LoRa_available f0 <? 8 then (mgr, []) else
  let mgr1 := set_signal mgr rssi snr in
  let '(mt, f1) := LoRa_read f0 in
  let '(sourceId, f2) := read16 f1 in
  let '(destId, f3) := read16 f2 in
  let '(packetId, f4) := read16 f3 in
  let '(len, f5) := LoRa_read f4 in
  let messageType := u8 mt in
  let length := u8 len in
  if negb (destId =? _deviceId mgr1) && negb (destId =? 65535) then (mgr1, []) else
  if length >? LORA_MAX_PACKET_SIZE then (mgr1, []) else
  let '(pl, _) := read_available (Z.to_nat length) f5 in
  let packet := mkPacket messageType sourceId destId packetId length pl in
  let '(mgr2, acks) :=
    if negb (destId =? 65535) && negb (messageType =? LORA_MSG_ACK)
    then sendAcknowledgment mgr1 packet
    else (mgr1, []) in
  (mgr2, acks ++ (if _messageCallback mgr2 then [Dispatched packet] else [])).

(** [update]: [frame] is the packet the radio holds, empty when
    [LoRa.parsePacket()] reports none. *)
Definition update (mgr : LoRaManager) (frame : list Z) (rssi snr : Z)
  : LoRaManager * list Event :=
  if negb (_initialized mgr) || negb (_enabled mgr) then (mgr, []) else
  if Z.of_nat (List.length frame) >? 0 then handleReceivedPacket mgr frame rssi snr
  else (mgr, []).

(** ** Configuration (lora.cpp 219-325) *)

Definition config_of (mgr : LoRaManager) : LoRaConfig :=
  mkConfig (_frequency mgr) (_bandwidth mgr) (_spreadingFactor mgr)
    (_codingRate mgr) (_syncWord mgr) (_deviceId mgr) (_enabled mgr).

(** [saveConfig]; whether the file system accepts the write does not
    matter to [configure], which ignores the result. *)
Definition saveConfig (mgr : LoRaManager) : list Event := [Saved (config_of mgr)].

(** The pattern of lines 243-246 and 267-270: write the parameter when it
    changed. *)
Definition apply_changed (v cur : Z) (write : Z -> Event) : Z * list Event :=
  if negb (v =? cur) then (v, [write v]) else (cur, []).

(** The pattern of lines 249-255 and 258-264: write the parameter when it
    changed and is in [lo..hi]; clear [success] when it is outside. *)
Definition apply_ranged (success : bool) (v cur lo hi : Z) (write : Z -> Event)
  : bool * Z * list Event :=
  if negb (v =? cur) && (v >=? lo) && (v <=? hi) then (success, v, [write v])
  else if (v <? lo) || (v >? hi) then (false, cur, [])
  else (success, cur, []).

(** [configure]; [freq_ok] is the answer of [LoRa.setFrequency]. *)
Definition configure (mgr : LoRaManager) (frequency bandwidth spreadingFactor
  codingRate syncWord : Z) (freq_ok : bool) : bool * LoRaManager * list Event :=
  if negb (_initialized mgr) then
    (true, set_radio_state mgr frequency bandwidth spreadingFactor codingRate syncWord, [])
  else
  let '(success1, f, ev1) :=
    if negb (frequency =? _frequency mgr) then
      if freq_ok then (true, frequency, [SetFrequency frequency])
      else (false, _frequency mgr, [SetFrequency frequency])
    else (true, _frequency mgr, []) in
  let '(bw, ev2) := apply_changed bandwidth (_bandwidth mgr) SetSignalBandwidth in
  let '(success2, sf, ev3) :=
    apply_ranged success1 spreadingFactor (_spreadingFactor mgr) 6 12 SetSpreadingFactor in
  let '(success3, cr, ev4) :=
    apply_ranged success2 codingRate (_codingRate mgr) 5 8 SetCodingRate4 in
  let '(sw, ev5) := apply_changed syncWord (_syncWord mgr) SetSyncWord in
  let mgr1 := set_radio_state mgr f bw sf cr sw in
  (success3, mgr1,
   ev1 ++ ev2 ++ ev3 ++ ev4 ++ ev5 ++ (if success3 then saveConfig mgr1 else [])).

(** ** Construction, initialization and persistence (lora.cpp 13-75,
    281-357) *)

(** The constructor [LoRaManager()]; [defaultId] is [getDefaultDeviceId()],
    read from the MAC address. *)
Definition LoRaManager_new (defaultId : Z) : LoRaManager :=
  mkManager false false defaultId 0 915000000 125000 7 5 18 0 0 false.

Definition set_enabled_field (mgr : LoRaManager) (b : bool) : LoRaManager :=
  mkManager (_initialized mgr) b (_deviceId mgr) (_packetCounter mgr)
    (_frequency mgr) (_bandwidth mgr) (_spreadingFactor mgr) (_codingRate mgr)
    (_syncWord mgr) (_lastRssi mgr) (_lastSnr mgr) (_messageCallback mgr).

Definition set_deviceId_field (mgr : LoRaManager) (d : Z) : LoRaManager :=
  mkManager (_initialized mgr) (_enabled mgr) d (_packetCounter mgr)
    (_frequency mgr) (_bandwidth mgr) (_spreadingFactor mgr) (_codingRate mgr)
    (_syncWord mgr) (_lastRssi mgr) (_lastSnr mgr) (_messageCallback mgr).

(** The JSON document [loadConfig] reads: each key present with a value of
    the requested type, or absent. *)
Record ConfigDoc := mkDoc {
  doc_frequency : option Z;
  doc_bandwidth : option Z;
  doc_spreadingFactor : option Z;
  doc_codingRate : option Z;
  doc_syncWord : option Z;
  doc_deviceId : option Z;
  doc_enabled : option bool
}.

(** The document [saveConfig] writes for a configuration. *)
Definition doc_of_config (c : LoRaConfig) : ConfigDoc :=
  mkDoc (Some (cfg_frequency c)) (Some (cfg_bandwidth c)) (Some (cfg_spreadingFactor c))
    (Some (cfg_codingRate c)) (Some (cfg_syncWord c)) (Some (cfg_deviceId c))
    (Some (cfg_enabled c)).

(** ArduinoJson's [doc["key"] | default]. *)
Definition or_default {A : Type} (v : option A) (d : A) : A :=
  match v with Some x => x | None => d end.

(** [loadConfig]; [doc] is what [fsManager.loadJsonFromFile] yields,
    [None] when the file cannot be loaded. *)
Definition loadConfig (mgr : LoRaManager) (doc : option ConfigDoc) (defaultId : Z)
  : bool * LoRaManager :=
  match doc with
  | None => (false, mgr)
  | Some d =>
      (true, mkManager (_initialized mgr) (or_default (doc_enabled d) true)
               (or_default (doc_deviceId d) defaultId) (_packetCounter mgr)
               (or_default (doc_frequency d) 915000000)
               (or_default (doc_bandwidth d) 125000)
               (or_default (doc_spreadingFactor d) 7)
               (or_default (doc_codingRate d) 5)
               (or_default (doc_syncWord d) 18)
               (_lastRssi mgr) (_lastSnr mgr) (_messageCallback mgr))
  end.

(** [init]; [begin_ok] is the answer of [LoRa.begin(_frequency)], which
    starts the radio on [_frequency] (recorded as [SetFrequency]). *)
Definition init (mgr : LoRaManager) (doc : option ConfigDoc) (defaultId : Z)
  (begin_ok : bool) : bool * LoRaManager * list Event :=
  let '(_, mgr1) := loadConfig mgr doc defaultId in
  if negb begin_ok then (false, mgr1, []) else
  (true,
   mkManager true true (_deviceId mgr1) (_packetCounter mgr1) (_frequency mgr1)
     (_bandwidth mgr1) (_spreadingFactor mgr1) (_codingRate mgr1) (_syncWord mgr1)
     (_lastRssi mgr1) (_lastSnr mgr1) (_messageCallback mgr1),
   [SetFrequency (_frequency mgr1); SetSignalBandwidth (_bandwidth mgr1);
    SetSpreadingFactor (_spreadingFactor mgr1); SetCodingRate4 (_codingRate mgr1);
    SetSyncWord (_syncWord mgr1)]).

(** [setDeviceId] and [setEnabled] save the configuration after the
    change. *)
Definition setDeviceId (mgr : LoRaManager) (id : Z) : LoRaManager * list Event :=
  let mgr1 := set_deviceId_field mgr id in (mgr1, saveConfig mgr1).

Definition setEnabled (mgr : LoRaManager) (enable : bool) : LoRaManager * list Event :=
  let mgr1 := set_enabled_field mgr enable in (mgr1, saveConfig mgr1).

(** ** Text messages (lora.cpp 91-110) *)

(** [sendTextMessage]; [message] holds the bytes of the [String],
    [tx_ok] the answer of [LoRa.endPacket()]. The clamped [size_t] length
    is passed to the [uint8_t] parameter of [createPacket]. *)
Definition sendTextMessage (mgr : LoRaManager) (message : list Z) (destId : Z)
  (tx_ok : bool) : bool * LoRaManager * list Event :=
  if negb (_initialized mgr) || negb (_enabled mgr) then (false, mgr, []) else
  let length0 := Z.of_nat (List.length message) in
  let length := if length0 >? LORA_MAX_PACKET_SIZE then LORA_MAX_PACKET_SIZE else length0 in
  let payload := firstn (Z.to_nat length) message in
  let '(mgr1, packet) := createPacket mgr LORA_MSG_TEXT destId payload (u8 length) in
  let '(ok, evs) := sendPacket mgr1 packet tx_ok in
  (ok, mgr1, evs).

(** The ACK [sendAcknowledgment] builds on [mgr] for [p]. *)
Definition ack_of (mgr : LoRaManager) (p : LoRaPacket) : LoRaPacket :=
  mkPacket LORA_MSG_ACK (_deviceId mgr) (sourceId p) (_packetCounter mgr) 2
    [packetId p / 256; packetId p mod 256].

End Comms.

(** * Proofs about the HAL module *)

Module HalFacts.
Import Hal.

Lemma u8_byte (x : Z) : is_byte x -> u8 x = x.
Proof. unfold u8, is_byte; intros; apply Z.mod_small; lia. Qed.

Lemma read_payload_bytes (bs rest : list Z) (k : nat) :
  Forall is_byte bs ->
  read_payload (List.length bs) (mkFifo (bs ++ rest) k) = (Some bs, mkFifo rest k).
Proof.
  induction 1 as [|b bs Hb _ IH]; [reflexivity|].
  cbn [List.length read_payload app].
  unfold LoRa_available, LoRa_read; cbn [fifo_bytes past_end List.length].
  replace (Z.of_nat (S (List.length (bs ++ rest))) >? 0) with true by (symmetry; apply Z.gtb_lt; lia).
  rewrite IH, u8_byte by exact Hb. reflexivity.
Qed.

Lemma read_payload_past_end (n : nat) (f : Fifo) :
  past_end (snd (read_payload n f)) = past_end f.
Proof.
  revert f; induction n as [|n IH]; intros [bs k]; [reflexivity|].
  cbn [read_payload]. unfold LoRa_available, LoRa_read; cbn [fifo_bytes past_end].
  destruct bs as [|b bs]; [reflexivity|].
  destruct (Z.of_nat (List.length (b :: bs)) >? 0); [|reflexivity].
  specialize (IH (mkFifo bs k)).
  destruct (read_payload n (mkFifo bs k)) as [[r|] f2]; exact IH.
Qed.

Lemma read_payload_fails (n : nat) (f : Fifo) :
  fst (read_payload n f) = None <-> (List.length (fifo_bytes f) < n)%nat.
Proof.
  revert f; induction n as [|n IH]; intros [bs k].
  - cbn. split; [discriminate | lia].
  - cbn [read_payload]. unfold LoRa_available, LoRa_read; cbn [fifo_bytes past_end].
    destruct bs as [|b bs].
    + cbn. split; [lia | reflexivity].
    + replace (Z.of_nat (List.length (b :: bs)) >? 0) with true
        by (symmetry; apply Z.gtb_lt; cbn [List.length]; lia).
      specialize (IH (mkFifo bs k)); cbn [fifo_bytes] in IH.
      destruct (read_payload n (mkFifo bs k)) as [[r|] f2]; cbn [fst] in *;
        cbn [List.length]; split; intros H; try discriminate;
        try (apply IH in H; lia); try (assert (Some r = None) by (apply IH; lia); discriminate);
        reflexivity.
Qed.

(** Claim C1. Round trip of the wire format: every well-formed packet, written as
    [sendPacket] writes it, is read back as [receivePacket] reads it
    unchanged. *)
Theorem decode_encode (p : LoRaPacket) :
  wf_packet p -> fst (decode (fifo_of (encode p))) = Some p.
Proof.
  intros (Hd & Hs & Hi & Hf & Hl & Hlen & Hpl).
  destruct p as [d s i fl l pl]; cbn [destination source id flags length payload] in *.
  unfold encode, decode, fifo_of; cbn [destination source id flags length payload app].
  unfold LoRa_read; cbn [fifo_bytes past_end].
  rewrite (u8_byte l) by (unfold is_byte, PAYLOAD_SIZE in *; lia).
  replace (l >? PAYLOAD_SIZE) with false by (symmetry; rewrite Z.gtb_ltb; apply Z.ltb_ge; unfold PAYLOAD_SIZE in *; lia).
  rewrite <- Hlen, Nat2Z.id, firstn_all.
  pose proof (read_payload_bytes pl [] 0 Hpl) as Hr. rewrite app_nil_r in Hr.
  rewrite Hr, !u8_byte by assumption. reflexivity.
Qed.

Lemma decode_encode_witness :
  let p := mkPacket 2 1 7 LORA_FLAG_RELIABLE 3 [104; 105; 33] in
  wf_packet p /\ fst (decode (fifo_of (encode p))) = Some p.
Proof.
  intros p.
  assert (H : wf_packet p).
  { unfold wf_packet, PAYLOAD_SIZE; cbn.
    split; [unfold is_byte; lia|]. split; [unfold is_byte; lia|].
    split; [unfold is_byte; lia|]. split; [unfold is_byte, LORA_FLAG_RELIABLE; lia|].
    split; [lia|]. split; [reflexivity|].
    repeat (apply Forall_cons; [unfold is_byte; lia|]). apply Forall_nil. }
  split; [exact H | exact (decode_encode p H)].
Defined.


(** Claim C5 (as amended). [receivePacket] rejects a frame with
    [LoRaStatus::ERROR] exactly when it has fewer than 5 bytes, or its length
    byte exceeds 240, or its length byte exceeds the bytes after the header.
    Only the five header reads can run past the end of the frame (one
    for each missing header byte); every payload read is guarded by
    [LoRa.available()]. *)
Theorem decode_rejects (bs : list Z) :
  Forall is_byte bs ->
  (fst (decode (fifo_of bs)) = None <->
     (List.length bs < 5)%nat \/ 240 < nth 4 bs 0
     \/ Z.of_nat (List.length bs) - 5 < nth 4 bs 0)
  /\ past_end (snd (decode (fifo_of bs))) = (5 - List.length bs)%nat.
Proof.
  intros Hbs.
  destruct bs as [|a [|b [|c [|d [|e rest]]]]];
    try (vm_compute; split; [split; [intros _; left; lia | reflexivity] | reflexivity]).
  apply Forall_cons_iff in Hbs as [_ Hbs]; apply Forall_cons_iff in Hbs as [_ Hbs];
  apply Forall_cons_iff in Hbs as [_ Hbs]; apply Forall_cons_iff in Hbs as [_ Hbs];
  apply Forall_cons_iff in Hbs as [He _].
  unfold decode, fifo_of, LoRa_read; cbn [fifo_bytes past_end nth List.length].
  rewrite (u8_byte e He). unfold PAYLOAD_SIZE.
  destruct (e >? 240) eqn:Hgt.
  - apply Z.gtb_lt in Hgt. cbn. split; [split; [intros _; right; left; lia | reflexivity] | reflexivity].
  - rewrite Z.gtb_ltb, Z.ltb_ge in Hgt.
    pose proof (read_payload_fails (Z.to_nat e) (mkFifo rest 0)) as Hf.
    pose proof (read_payload_past_end (Z.to_nat e) (mkFifo rest 0)) as Hp.
    cbn [fifo_bytes past_end] in Hf, Hp.
    destruct (read_payload (Z.to_nat e) (mkFifo rest 0)) as [[pl|] f6];
      cbn [fst snd] in *; split; try exact Hp.
    + split; [discriminate|]. intros [H|[H|H]]; [lia|lia|].
      assert (Some pl = None) by (apply Hf; lia). discriminate.
    + split; [intros _|reflexivity]. right; right.
      assert (List.length rest < Z.to_nat e)%nat by (apply Hf; reflexivity). lia.
Qed.

Lemma decode_rejects_witness :
  let bs := [2; 1; 7; 0; 4; 9] in
  Forall is_byte bs /\
  (fst (decode (fifo_of bs)) = None <->
     (List.length bs < 5)%nat \/ 240 < nth 4 bs 0
     \/ Z.of_nat (List.length bs) - 5 < nth 4 bs 0)
  /\ past_end (snd (decode (fifo_of bs))) = (5 - List.length bs)%nat.
Proof.
  intros bs.
  assert (H : Forall is_byte bs).
  { repeat (apply Forall_cons; [unfold is_byte; lia|]). apply Forall_nil. }
  split; [exact H | exact (decode_rejects bs H)].
Defined.


(** Claim C5, counterexample: on the 3-byte frame [1; 2; 3], two of the
    header reads run past the end of the frame (the library answers -1,
    stored as 0xFF), and the frame is rejected by the length check, the
    same [ERROR] as an oversize frame, not by a distinct truncation error. *)
Lemma decode_short_reads_past_end :
  past_end (snd (decode (fifo_of [1; 2; 3]))) = 2%nat
  /\ fst (decode (fifo_of [1; 2; 3])) = None
  /\ fst (decode (fifo_of [1; 2; 3; 4; 241]))  = None.
Proof. vm_compute. auto. Qed.

(** Claim C6. Each configuration setter rejects an argument outside its
    legal range or set with [false] and leaves the whole module state,
    hence every getter, unchanged; when it returns [true], the module is the
    old one with that cached field set to the argument. *)
Theorem setters_validate_before_mutating (m : LoRaModule) :
  (forall bw, ~ In bw legal_bandwidths -> setBandwidth m bw = (false, m))
  /\ (forall sf, sf < 6 \/ 12 < sf -> setSpreadingFactor m sf = (false, m))
  /\ (forall cr, cr < 5 \/ 8 < cr -> setCodingRate m cr = (false, m))
  /\ (forall pw, pw < 2 \/ 20 < pw -> setTxPower m pw = (false, m))
  /\ (forall bw m', setBandwidth m bw = (true, m') -> m' = set_bandwidth_field m bw
                                                      /\ _bandwidth m' = bw)
  /\ (forall sf m', setSpreadingFactor m sf = (true, m') ->
        m' = set_spreadingFactor_field m sf /\ _spreadingFactor m' = sf)
  /\ (forall cr m', setCodingRate m cr = (true, m') ->
        m' = set_codingRate_field m cr /\ _codingRate m' = cr)
  /\ (forall pw m', setTxPower m pw = (true, m') ->
        m' = set_txPower_field m pw /\ _txPower m' = pw).
Proof.
  unfold setBandwidth, setSpreadingFactor, setCodingRate, setTxPower.
  repeat split; intros.
  5-12: destruct (_available m); cbn [negb] in H; try discriminate;
        repeat match goal with
               | H : (if ?c then _ else _) = _ |- _ => destruct c; try discriminate
               end;
        injection H as <-; reflexivity.
  - destruct (_available m); [|reflexivity]. cbn [negb].
    destruct (existsb (Z.eqb bw) legal_bandwidths) eqn:E; [|reflexivity].
    apply existsb_exists in E as (x & Hx & Hxe). apply Z.eqb_eq in Hxe; subst.
    contradiction.
  - destruct (_available m); [|reflexivity]. cbn [negb].
    replace ((sf <? 6) || (sf >? 12)) with true; [reflexivity|].
    rewrite Z.gtb_ltb. destruct H; [rewrite (proj2 (Z.ltb_lt sf 6) H) | rewrite (proj2 (Z.ltb_lt 12 sf) H), orb_true_r]; reflexivity.
  - destruct (_available m); [|reflexivity]. cbn [negb].
    replace ((cr <? 5) || (cr >? 8)) with true; [reflexivity|].
    rewrite Z.gtb_ltb. destruct H; [rewrite (proj2 (Z.ltb_lt cr 5) H) | rewrite (proj2 (Z.ltb_lt 8 cr) H), orb_true_r]; reflexivity.
  - destruct (_available m); [|reflexivity]. cbn [negb].
    replace ((pw <? 2) || (pw >? 20)) with true; [reflexivity|].
    rewrite Z.gtb_ltb. destruct H; [rewrite (proj2 (Z.ltb_lt pw 2) H) | rewrite (proj2 (Z.ltb_lt 20 pw) H), orb_true_r]; reflexivity.
Qed.

Lemma setters_validate_before_mutating_witness :
  let m := mkModule true 915000000 125000 7 5 18 17 RECEIVE 1 1000 0 in
  ~ In 1000 legal_bandwidths /\ setBandwidth m 1000 = (false, m)
  /\ (13 < 6 \/ 12 < 13) /\ setSpreadingFactor m 13 = (false, m).
Proof.
  intros m.
  assert (Hb : ~ In 1000 legal_bandwidths) by (cbn; lia).
  assert (Hs : 13 < 6 \/ 12 < 13) by lia.
  destruct (setters_validate_before_mutating m) as (H1 & H2 & _).
  split; [exact Hb | split; [exact (H1 1000 Hb) | split; [exact Hs | exact (H2 13 Hs)]]].
Defined.


(** Claim C7 (as amended). [setMode(CAD)] returns [false] and leaves the
    module, hence its mode, as it was, whatever the current mode; on an
    available module, [setMode] with any of the four supported modes
    returns [true] and stores that mode. *)
Theorem setMode_cad_rejected (m : LoRaModule) :
  setMode m CAD = (false, m)
  /\ (_available m = true -> forall mode, mode <> CAD ->
        setMode m mode = (true, set_mode_field m mode) /\ getMode (snd (setMode m mode)) = mode).
Proof.
  split.
  - unfold setMode. destruct m as [[] ? ? ? ? ? ? ? ? ? ?]; reflexivity.
  - intros Ha mode Hm. unfold setMode. rewrite Ha. cbn [negb].
    destruct mode; [..|contradiction]; split; reflexivity.
Qed.

Lemma setMode_cad_rejected_witness :
  let m := mkModule true 915000000 125000 7 5 18 17 RECEIVE 1 1000 0 in
  _available m = true /\ SLEEP <> CAD
  /\ setMode m SLEEP = (true, set_mode_field m SLEEP)
  /\ getMode (snd (setMode m SLEEP)) = SLEEP.
Proof.
  intros m.
  assert (Ha : _available m = true) by reflexivity.
  assert (Hs : SLEEP <> CAD) by discriminate.
  split; [exact Ha | split; [exact Hs | exact (proj2 (setMode_cad_rejected m) Ha SLEEP Hs)]].
Defined.


(** Claim C7, counterexample: on a module that is not available (before
    [begin] succeeded, or after [end]), [setMode(STANDBY)] fails. *)
Lemma setMode_unavailable_fails :
  fst (setMode (mkModule false 915000000 125000 7 5 18 17 SLEEP 1 1000 0) STANDBY) = false.
Proof. reflexivity. Qed.

Lemma transmit_spec (m : LoRaModule) (p : LoRaPacket) :
  _available m = true ->
  let '(m', p', fr) := transmit m p in
  _available m' = true /\ _nodeAddress m' = _nodeAddress m /\ _timeout m' = _timeout m
  /\ fr = encode p'
  /\ source p' = _nodeAddress m
  /\ id p' = (if id p =? 0 then u8 (_packetId m + 1) else id p)
  /\ destination p' = destination p /\ flags p' = flags p
  /\ length p' = length p /\ payload p' = payload p.
Proof.
  intros Ha. unfold transmit.
  assert (Hm : let m1 := if mode_eqb (_mode m) TRANSMIT then m else snd (setMode m TRANSMIT) in
               _available m1 = true /\ _nodeAddress m1 = _nodeAddress m
               /\ _timeout m1 = _timeout m /\ _packetId m1 = _packetId m).
  { destruct (mode_eqb (_mode m) TRANSMIT); [auto|].
    unfold setMode; rewrite Ha; cbn; auto. }
  cbn zeta in Hm |- *.
  destruct (if mode_eqb (_mode m) TRANSMIT then m else snd (setMode m TRANSMIT)) as [a ? ? ? ? ? ? ? nd t pid].
  cbn in Hm. destruct Hm as (-> & -> & -> & ->).
  cbn [id]. destruct (id p =? 0); cbn; repeat split; reflexivity.
Qed.

(** Claim C10. On an available module, [sendPacket] always overwrites the
    caller's [source] with the node address, replaces [id] by the
    pre-incremented 8-bit counter exactly when the caller's [id] is 0
    (so a counter that wraps to 0 leaves [id] 0 and the next send of that
    packet draws a fresh id), and leaves [destination], [flags], [length]
    and [payload] unchanged, whatever the outcome of the send. *)
Theorem sendPacket_stamps_packet (m : LoRaModule) (p : LoRaPacket) (timeout : Z)
  (tx_ok : bool) (polls : list (Z * option (list Z))) :
  _available m = true ->
  let '(_, _, p', _) := sendPacket m p timeout tx_ok polls in
  source p' = _nodeAddress m
  /\ (id p = 0 -> id p' = (_packetId m + 1) mod 256)
  /\ (id p <> 0 -> id p' = id p)
  /\ destination p' = destination p /\ flags p' = flags p
  /\ length p' = length p /\ payload p' = payload p.
Proof.
  intros Ha. unfold sendPacket. rewrite Ha. cbn [negb].
  pose proof (transmit_spec m p Ha) as Ht.
  destruct (transmit m p) as [[m1 p1] fr].
  destruct Ht as (_ & _ & _ & _ & Hs & Hi & Hd & Hf & Hl & Hp).
  assert (Hid : (id p = 0 -> id p1 = (_packetId m + 1) mod 256) /\ (id p <> 0 -> id p1 = id p)).
  { rewrite Hi. split; intros H.
    - rewrite H. reflexivity.
    - apply Z.eqb_neq in H. rewrite H. reflexivity. }
  destruct Hid as [Hid1 Hid2].
  destruct tx_ok; cbn [negb]; [|auto 10].
  destruct (negb (has_flag (flags p1) LORA_FLAG_RELIABLE)); [auto 10|].
  destruct (ack_wait _ p1 _ polls) as [[st m3] sent]. auto 10.
Qed.

Lemma sendPacket_stamps_packet_witness :
  let m := mkModule true 915000000 125000 7 5 18 17 RECEIVE 1 1000 255 in
  let p := mkPacket 2 9 0 0 1 [7] in
  _available m = true /\
  (let '(_, _, p', _) := sendPacket m p 0 true [] in
   source p' = _nodeAddress m
   /\ (id p = 0 -> id p' = (_packetId m + 1) mod 256)
   /\ (id p <> 0 -> id p' = id p)
   /\ destination p' = destination p /\ flags p' = flags p
   /\ length p' = length p /\ payload p' = payload p).
Proof.
  intros m p.
  assert (Ha : _available m = true) by reflexivity.
  split; [exact Ha | exact (sendPacket_stamps_packet m p 0 true [] Ha)].
Defined.


(** Claim C3 (code defect). A node with address 2 and packet counter 0
    receives the reliable packet [dst=2, src=5, id=0, flags=RELIABLE,
    length=0]. [receivePacket] builds the ACK with [id = 0], but
    [sendPacket] treats id 0 as unassigned and stamps the counter value 1:
    the ACK written carries id 1, not the received id 0. *)
Theorem receivePacket_ack_id_zero :
  let m := mkModule true 915000000 125000 7 5 18 17 RECEIVE 2 1000 0 in
  let '(st, _, rp, sent) := receivePacket m (Some [2; 5; 0; 2; 0]) in
  st = OK /\ rp = Some (mkPacket 2 5 0 LORA_FLAG_RELIABLE 0 [])
  /\ sent = [encode (mkPacket 5 2 1 LORA_FLAG_ACK 0 [])].
Proof. vm_compute. auto. Qed.

Ltac legal_sf_bw sf bw Hsf Hbw :=
  assert (sf = 6 \/ sf = 7 \/ sf = 8 \/ sf = 9 \/ sf = 10 \/ sf = 11 \/ sf = 12)
    as Hsf' by lia; clear Hsf;
  cbn [legal_bandwidths In] in Hbw;
  repeat destruct Hsf' as [->|Hsf']; try subst sf;
  repeat destruct Hbw as [<-|Hbw]; try contradiction.

(** Claim C4 (as amended). The airtime estimate of [waitForTxReady] does
    not take the packet: it uses a fixed 20-byte payload and integer
    division, [8 + (20*8)/(4*SF)] payload symbols. For every SF in 6..12
    and legal bandwidth it equals the documented formula at payload length
    20 when [4*SF] divides 160 (SF 8 and 10), and is one symbol duration
    below it otherwise. At SF 7 and 125 kHz it is 25906 ms. *)
Theorem airtime_fixed_payload (sf bw : Z) :
  6 <= sf <= 12 -> In bw legal_bandwidths ->
  estimatedAirtime sf bw + 50
    = estimateAirtimeMs_spec sf bw 20
      - (if 160 mod (4 * sf) =? 0 then 0 else symbolDuration sf bw)
  /\ estimatedAirtime 7 125000 + 50 = 25906.
Proof.
  intros Hsf Hbw. legal_sf_bw sf bw Hsf Hbw; vm_compute; split; reflexivity.
Qed.

Lemma airtime_fixed_payload_witness :
  (6 <= 9 <= 12) /\ In 62500 legal_bandwidths /\
  estimatedAirtime 9 62500 + 50
    = estimateAirtimeMs_spec 9 62500 20
      - (if 160 mod (4 * 9) =? 0 then 0 else symbolDuration 9 62500)
  /\ estimatedAirtime 7 125000 + 50 = 25906.
Proof.
  assert (Hs : 6 <= 9 <= 12) by lia.
  assert (Hb : In 62500 legal_bandwidths) by (cbn; auto 10).
  split; [exact Hs | split; [exact Hb | exact (airtime_fixed_payload 9 62500 Hs Hb)]].
Defined.


(** Claim C4, counterexample: at SF 7, 125 kHz and a 20-byte payload the
    formula gives 26930 ms while the code's estimate is 25906 ms. *)
Lemma airtime_differs_from_formula :
  estimatedAirtime 7 125000 + 50 = 25906
  /\ estimateAirtimeMs_spec 7 125000 20 = 26930.
Proof. vm_compute. auto. Qed.

Lemma setMode_receive_keeps (m : LoRaModule) :
  _available m = true ->
  _available (snd (setMode m RECEIVE)) = true
  /\ _nodeAddress (snd (setMode m RECEIVE)) = _nodeAddress m
  /\ _timeout (snd (setMode m RECEIVE)) = _timeout m.
Proof. intros Ha. unfold setMode. rewrite Ha. cbn. auto. Qed.

Lemma enter_receive_keeps (m : LoRaModule) :
  _available m = true ->
  _available (enter_receive m) = true
  /\ _nodeAddress (enter_receive m) = _nodeAddress m.
Proof.
  intros Ha. destruct (setMode_receive_keeps m Ha) as (H1 & H2 & _).
  unfold enter_receive. rewrite Ha. cbn [negb].
  destruct (_mode m); split; assumption || reflexivity.
Qed.

Lemma receivePacket_frame (m : LoRaModule) (fr : list Z) :
  _available m = true ->
  let '(st, m', ap, sent) := receivePacket m (Some fr) in
  _available m' = true /\ _nodeAddress m' = _nodeAddress m
  /\ match fst (decode (fifo_of fr)) with
     | Some a => st = OK /\ ap = Some a
     | None => st = ERROR /\ ap = None
     end
  /\ Forall is_ack_frame sent.
Proof.
  intros Ha. unfold receivePacket. rewrite Ha. cbn [negb].
  destruct (enter_receive_keeps m Ha) as [Ha1 Hn1].
  destruct (fst (decode (fifo_of fr))) as [a|]; [|auto].
  destruct (_ && _); [auto|].
  destruct (_ && _); [|auto].
  pose proof (transmit_spec (enter_receive m)
                (mkPacket (source a) (_nodeAddress (enter_receive m)) (id a) LORA_FLAG_ACK 0 []) Ha1) as Ht.
  destruct (transmit _ _) as [[m2 q] f].
  destruct Ht as (Ha2 & Hn2 & _ & -> & _ & _ & _ & Hf & Hl & _).
  cbn [flags length] in Hf, Hl.
  repeat split; try congruence.
  constructor; [|constructor]. exists q. auto.
Qed.

Lemma ack_wait_spec (m : LoRaModule) (p : LoRaPacket) (eff : Z)
  (polls : list (Z * option (list Z))) :
  _available m = true ->
  let '(st, _, sent) := ack_wait m p eff polls in
  st = (if acked_before (_nodeAddress m) p eff polls then OK else NO_ACK)
  /\ Forall is_ack_frame sent.
Proof.
  revert m; induction polls as [|[t obs] rest IH]; intros m Ha; [cbn; auto|].
  cbn [ack_wait acked_before].
  destruct (t <? eff); [|auto].
  destruct (enter_receive_keeps m Ha) as [Ha1 Hn1].
  destruct obs as [fr|].
  - pose proof (receivePacket_frame (enter_receive m) fr Ha1) as Hr.
    destruct (receivePacket (enter_receive m) (Some fr)) as [[[st m2] ap] sent].
    destruct Hr as (Ha2 & Hn2 & Hd & Hs).
    destruct (fst (decode (fifo_of fr))) as [a|]; destruct Hd as [-> ->].
    + unfold ack_matches. rewrite Hn2, Hn1.
      destruct (_ && _ && _ && _); cbn [orb]; [auto|].
      specialize (IH m2 Ha2).
      destruct (ack_wait m2 p eff rest) as [[st' m3] sent'].
      rewrite Hn2, Hn1 in IH. destruct IH as [IH1 IH2].
      split; [exact IH1|]. apply Forall_app; auto.
    + cbn [orb].
      specialize (IH m2 Ha2).
      destruct (ack_wait m2 p eff rest) as [[st' m3] sent'].
      rewrite Hn2, Hn1 in IH. destruct IH as [IH1 IH2].
      split; [exact IH1|]. apply Forall_app; auto.
  - cbn [orb]. specialize (IH (enter_receive m) Ha1).
    rewrite Hn1 in IH. exact IH.
Qed.

Lemma enter_receive_mode (m : LoRaModule) :
  _available m = true -> _mode (enter_receive m) = RECEIVE.
Proof.
  intros Ha. unfold enter_receive, setMode. rewrite Ha. cbn [negb].
  destruct (_mode m) eqn:Hm; cbn; congruence.
Qed.

Lemma receivePacket_mode (m : LoRaModule) (fr : list Z) :
  _available m = true ->
  let '(_, m', _, sent) := receivePacket m (Some fr) in
  sent = [] -> _mode m' = RECEIVE.
Proof.
  intros Ha. pose proof (enter_receive_mode m Ha) as Hm.
  unfold receivePacket. rewrite Ha. cbn [negb].
  destruct (fst (decode (fifo_of fr))) as [a|]; [|auto].
  destruct (_ && _); [auto|].
  destruct (_ && _); [|auto].
  destruct (transmit _ _) as [[m2 q] f]. discriminate.
Qed.

(** The ACK wait leaves the radio in RECEIVE mode unless it transmitted
    an automatic ACK meanwhile. *)
Lemma ack_wait_mode (m : LoRaModule) (p : LoRaPacket) (eff : Z)
  (polls : list (Z * option (list Z))) :
  _available m = true -> _mode m = RECEIVE ->
  let '(_, m', sent) := ack_wait m p eff polls in
  sent = [] -> _mode m' = RECEIVE.
Proof.
  revert m; induction polls as [|[t obs] rest IH]; intros m Ha Hm; [cbn; auto|].
  cbn [ack_wait]. destruct (t <? eff); [|auto].
  destruct (enter_receive_keeps m Ha) as [Ha1 _].
  pose proof (enter_receive_mode m Ha) as Hm1.
  destruct obs as [fr|]; [|exact (IH _ Ha1 Hm1)].
  pose proof (receivePacket_frame (enter_receive m) fr Ha1) as Hr.
  pose proof (receivePacket_mode (enter_receive m) fr Ha1) as Hrm.
  destruct (receivePacket (enter_receive m) (Some fr)) as [[[st m2] ap] sent].
  destruct Hr as (Ha2 & _).
  destruct (match st, ap with | OK, Some a => _ | _, _ => false end); [exact Hrm|].
  specialize (IH m2 Ha2).
  destruct (ack_wait m2 p eff rest) as [[st' m3] sent'].
  intros Hnil. apply app_eq_nil in Hnil as [-> ->]. exact (IH (Hrm eq_refl) eq_refl).
Qed.

(** Claim C2 (as amended). For a packet with the RELIABLE flag,
    [sendPacket] returns [ERROR] and writes nothing on an unavailable
    module. On an available one it writes the packet exactly once; when
    [LoRa.endPacket()] reports failure it returns [ERROR] without waiting.
    Otherwise it switches to RECEIVE and waits: it returns [OK] when a poll
    made before the effective timeout ([timeout], or the module's default
    [_timeout] when [timeout] is 0) sees a frame that decodes to a packet
    with the ACK flag, the sent id, destination this node and source the
    sent destination, and [NO_ACK] otherwise. The only other frames it
    writes are zero-length ACKs for reliable packets received during the
    wait, and when it wrote none the radio is left in RECEIVE mode. *)
Theorem sendPacket_reliable_wait (m : LoRaModule) (p : LoRaPacket) (timeout : Z)
  (tx_ok : bool) (polls : list (Z * option (list Z))) :
  has_flag (flags p) LORA_FLAG_RELIABLE = true ->
  let eff := if timeout >? 0 then timeout else _timeout m in
  let '(st, m', p', sent) := sendPacket m p timeout tx_ok polls in
  (_available m = false -> st = ERROR /\ sent = [])
  /\ (_available m = true -> tx_ok = false -> st = ERROR /\ sent = [encode p'])
  /\ (_available m = true -> tx_ok = true ->
      st = (if acked_before (_nodeAddress m) p' eff polls then OK else NO_ACK)
      /\ exists acks, sent = encode p' :: acks /\ Forall is_ack_frame acks
         /\ (acks = [] -> _mode m' = RECEIVE)).
Proof.
  intros Hrel. unfold sendPacket.
  destruct (_available m) eqn:Ha; cbn [negb].
  2: { split; [auto|]. split; intros H; discriminate H. }
  pose proof (transmit_spec m p Ha) as Ht.
  destruct (transmit m p) as [[m1 p1] fr].
  destruct Ht as (Ha1 & Hn1 & Ht1 & -> & _ & _ & _ & Hf & _ & _).
  destruct tx_ok; cbn [negb].
  2: { split; [intros H; discriminate H|]. split; [auto | intros _ H; discriminate H]. }
  rewrite Hf, Hrel. cbn [negb]. rewrite Ht1.
  destruct (setMode_receive_keeps m1 Ha1) as (Ha2 & Hn2 & _).
  assert (Hm2 : _mode (snd (setMode m1 RECEIVE)) = RECEIVE)
    by (unfold setMode; rewrite Ha1; reflexivity).
  pose proof (ack_wait_spec (snd (setMode m1 RECEIVE)) p1
                (if timeout >? 0 then timeout else _timeout m) polls Ha2) as Hw.
  pose proof (ack_wait_mode (snd (setMode m1 RECEIVE)) p1
                (if timeout >? 0 then timeout else _timeout m) polls Ha2 Hm2) as Hwm.
  destruct (ack_wait _ _ _ _) as [[st m3] sent].
  rewrite Hn2, Hn1 in Hw. destruct Hw as [Hw1 Hw2].
  split; [intros H; discriminate H|]. split; [intros _ H; discriminate H|]. intros _ _.
  split; [exact Hw1|]. exists sent; auto.
Qed.

Lemma sendPacket_reliable_wait_witness :
  let m := mkModule true 915000000 125000 7 5 18 17 RECEIVE 1 1000 0 in
  let p := mkPacket 2 1 0 LORA_FLAG_RELIABLE 0 [] in
  let polls := [(0, Some [1; 2; 1; LORA_FLAG_ACK; 0])] in
  has_flag (flags p) LORA_FLAG_RELIABLE = true /\
  (let eff := if 500 >? 0 then 500 else _timeout m in
   let '(st, m', p', sent) := sendPacket m p 500 true polls in
   (_available m = false -> st = ERROR /\ sent = [])
   /\ (_available m = true -> true = false -> st = ERROR /\ sent = [encode p'])
   /\ (_available m = true -> true = true ->
       st = (if acked_before (_nodeAddress m) p' eff polls then OK else NO_ACK)
       /\ exists acks, sent = encode p' :: acks /\ Forall is_ack_frame acks
          /\ (acks = [] -> _mode m' = RECEIVE))).
Proof.
  intros m p polls.
  assert (Hr : has_flag (flags p) LORA_FLAG_RELIABLE = true) by reflexivity.
  split; [exact Hr | exact (sendPacket_reliable_wait m p 500 true polls Hr)].
Defined.

(** Claim C2, counterexample: [timeout] 0, the default argument of
    [sendPacket], does not mean an empty wait. The module's default
    [_timeout] of 1000 ms applies, so an ACK polled 500 ms after the send
    gives [OK] where a wait bounded by [timeoutMs = 0] would give
    [NO_ACK]. *)
Lemma sendPacket_zero_timeout_waits_default :
  let m := mkModule true 915000000 125000 7 5 18 17 RECEIVE 1 1000 0 in
  let p := mkPacket 2 1 0 LORA_FLAG_RELIABLE 0 [] in
  _timeout m = 1000
  /\ fst (fst (fst (sendPacket m p 0 true [(500, Some [1; 2; 1; LORA_FLAG_ACK; 0])]))) = OK.
Proof. vm_compute. split; reflexivity. Qed.

End HalFacts.

(** * Proofs about the communications manager *)

Module CommsFacts.
Import Comms.

Definition no_save (ev : list Event) : Prop := forall c, ~ In (Saved c) ev.

Lemma apply_changed_spec (v cur : Z) (write : Z -> Event) :
  (forall x c, write x <> Saved c) ->
  let '(r, ev) := apply_changed v cur write in r = v /\ no_save ev.
Proof.
  intros Hw. unfold apply_changed, no_save.
  destruct (Z.eqb_spec v cur) as [->|Hne]; cbn [negb]; split; try reflexivity.
  - intros c [].
  - intros c [H|[]]. exact (Hw v c H).
Qed.

Lemma apply_ranged_spec (success : bool) (v cur lo hi : Z) (write : Z -> Event) :
  (forall x c, write x <> Saved c) ->
  let '(s', r, ev) := apply_ranged success v cur lo hi write in
  s' = success && ((lo <=? v) && (v <=? hi))
  /\ r = (if (lo <=? v) && (v <=? hi) then v else cur)
  /\ no_save ev.
Proof.
  intros Hw. unfold apply_ranged. rewrite Z.geb_leb, Z.gtb_ltb.
  destruct (Z.eqb_spec v cur) as [<-|Hne], (Z.leb_spec lo v), (Z.leb_spec v hi),
    (Z.ltb_spec v lo), (Z.ltb_spec hi v); cbn [negb andb orb]; try lia;
    rewrite ?andb_true_r, ?andb_false_r;
    (split; [reflexivity | split; [reflexivity |]]);
    intros c Hin; first [(destruct Hin as [Hs|[]]; exact (Hw _ _ Hs)) | destruct Hin].
Qed.

Lemma apply_changed_events (v cur : Z) (write : Z -> Event) :
  snd (apply_changed v cur write) = if negb (v =? cur) then [write v] else [].
Proof. unfold apply_changed. destruct (negb _); reflexivity. Qed.

Lemma apply_ranged_events (success : bool) (v cur lo hi : Z) (write : Z -> Event) :
  snd (apply_ranged success v cur lo hi write)
  = if negb (v =? cur) && ((lo <=? v) && (v <=? hi)) then [write v] else [].
Proof.
  unfold apply_ranged. rewrite Z.geb_leb.
  destruct (negb (v =? cur)), (lo <=? v), (v <=? hi); cbn [andb];
    try reflexivity; destruct (_ || _); reflexivity.
Qed.

(** Claim C9 (as amended). [configure] on a manager whose radio is not
    initialized caches all five values without any check, returns [true]
    and writes or saves nothing. On an initialized manager it applies the
    parameters one after the other: the frequency if it changed and the
    radio accepts it, the bandwidth if it changed (never checked), the
    spreading factor if it changed and is in 6..12, the coding rate if it
    changed and is in 5..8, the sync word if it changed (never checked). It
    returns [false] exactly when the radio refused a new frequency or the
    spreading factor or coding rate is out of range, the parameters that
    passed being applied all the same; it saves the configuration exactly
    when it returns [true]. The radio calls are exactly, in this order:
    [setFrequency] when the frequency changed (made even when the radio
    then refuses it), [setSignalBandwidth] when the bandwidth changed,
    [setSpreadingFactor] when the spreading factor changed and is in 6..12,
    [setCodingRate4] when the coding rate changed and is in 5..8, and
    [setSyncWord] when the sync word changed; an unchanged or out-of-range
    value is never written. *)
Theorem configure_outcome (mgr : LoRaManager) (f bw sf cr sw : Z) (freq_ok : bool) :
  let '(ok, mgr', evs) := configure mgr f bw sf cr sw freq_ok in
  (_initialized mgr = false ->
     ok = true /\ mgr' = set_radio_state mgr f bw sf cr sw /\ evs = [])
  /\ (_initialized mgr = true ->
     let freq_applied := (f =? _frequency mgr) || freq_ok in
     let sf_ok := (6 <=? sf) && (sf <=? 12) in
     let cr_ok := (5 <=? cr) && (cr <=? 8) in
     ok = freq_applied && sf_ok && cr_ok
     /\ _frequency mgr' = (if freq_applied then f else _frequency mgr)
     /\ _bandwidth mgr' = bw
     /\ _spreadingFactor mgr' = (if sf_ok then sf else _spreadingFactor mgr)
     /\ _codingRate mgr' = (if cr_ok then cr else _codingRate mgr)
     /\ _syncWord mgr' = sw
     /\ evs = (if negb (f =? _frequency mgr) then [SetFrequency f] else [])
              ++ (if negb (bw =? _bandwidth mgr) then [SetSignalBandwidth bw] else [])
              ++ (if negb (sf =? _spreadingFactor mgr) && sf_ok
                  then [SetSpreadingFactor sf] else [])
              ++ (if negb (cr =? _codingRate mgr) && cr_ok then [SetCodingRate4 cr] else [])
              ++ (if negb (sw =? _syncWord mgr) then [SetSyncWord sw] else [])
              ++ (if ok then [Saved (config_of mgr')] else [])
     /\ (forall c, In (Saved c) evs <-> ok = true /\ c = config_of mgr')).
Proof.
  unfold configure. destruct (_initialized mgr) eqn:Hi; cbn [negb].
  2: { split; [auto | discriminate]. }
  assert (Hf : let '(s1, f1, ev1) :=
             if negb (f =? _frequency mgr) then
               if freq_ok then (true, f, [SetFrequency f])
               else (false, _frequency mgr, [SetFrequency f])
             else (true, _frequency mgr, []) in
           s1 = (f =? _frequency mgr) || freq_ok
           /\ f1 = (if (f =? _frequency mgr) || freq_ok then f else _frequency mgr)
           /\ ev1 = (if negb (f =? _frequency mgr) then [SetFrequency f] else [])
           /\ no_save ev1).
  { unfold no_save.
    destruct (Z.eqb_spec f (_frequency mgr)), freq_ok; cbn;
      repeat split; try congruence; intros c [H|[]]; discriminate. }
  destruct (if negb (f =? _frequency mgr) then _ else _) as [[s1 f1] ev1].
  destruct Hf as (-> & -> & -> & Hev1).
  pose proof (apply_changed_spec bw (_bandwidth mgr) SetSignalBandwidth
                ltac:(discriminate)) as Hb.
  pose proof (apply_changed_events bw (_bandwidth mgr) SetSignalBandwidth) as Eb.
  destruct (apply_changed bw _ _) as [bw1 ev2]. destruct Hb as [-> Hev2].
  cbn [snd] in Eb; subst ev2.
  pose proof (apply_ranged_spec ((f =? _frequency mgr) || freq_ok) sf
                (_spreadingFactor mgr) 6 12 SetSpreadingFactor ltac:(discriminate)) as Hs.
  pose proof (apply_ranged_events ((f =? _frequency mgr) || freq_ok) sf
                (_spreadingFactor mgr) 6 12 SetSpreadingFactor) as Es.
  destruct (apply_ranged _ sf _ _ _ _) as [[s2 sf1] ev3]. destruct Hs as (-> & -> & Hev3).
  cbn [snd] in Es; subst ev3.
  pose proof (apply_ranged_spec (((f =? _frequency mgr) || freq_ok)
                && ((6 <=? sf) && (sf <=? 12))) cr (_codingRate mgr) 5 8
                SetCodingRate4 ltac:(discriminate)) as Hc.
  pose proof (apply_ranged_events (((f =? _frequency mgr) || freq_ok)
                && ((6 <=? sf) && (sf <=? 12))) cr (_codingRate mgr) 5 8
                SetCodingRate4) as Ec.
  destruct (apply_ranged _ cr _ _ _ _) as [[s3 cr1] ev4]. destruct Hc as (-> & -> & Hev4).
  cbn [snd] in Ec; subst ev4.
  pose proof (apply_changed_spec sw (_syncWord mgr) SetSyncWord ltac:(discriminate)) as Hw.
  pose proof (apply_changed_events sw (_syncWord mgr) SetSyncWord) as Ew.
  destruct (apply_changed sw _ _) as [sw1 ev5]. destruct Hw as [-> Hev5].
  cbn [snd] in Ew; subst ev5.
  split; [discriminate|]. intros _. cbv zeta.
  cbn [_frequency _bandwidth _spreadingFactor _codingRate _syncWord set_radio_state].
  repeat split; try reflexivity.
  1,2: match goal with
       | Hin : In (Saved _) _ |- _ =>
           rewrite !in_app_iff in Hin;
           destruct Hin as [H|[H|[H|[H|[H|H]]]]];
           [ exfalso; exact (Hev1 _ H) | exfalso; exact (Hev2 _ H)
           | exfalso; exact (Hev3 _ H) | exfalso; exact (Hev4 _ H)
           | exfalso; exact (Hev5 _ H) | ]
       end;
       destruct (_ && _ && _); [|destruct H];
       destruct H as [H|[]]; first [reflexivity | injection H as <-; reflexivity].
  intros [Hok ->]. rewrite !in_app_iff. right; right; right; right; right.
  rewrite Hok. left. reflexivity.
Qed.

Lemma configure_outcome_witness :
  let mgr := mkManager true true 2 7 915000000 125000 7 5 18 0 0 true in
  _initialized mgr = true /\
  (let '(ok, mgr', evs) := configure mgr 868000000 250000 9 6 52 true in
   (_initialized mgr = false ->
      ok = true /\ mgr' = set_radio_state mgr 868000000 250000 9 6 52 /\ evs = [])
   /\ (_initialized mgr = true ->
      let freq_applied := (868000000 =? _frequency mgr) || true in
      let sf_ok := (6 <=? 9) && (9 <=? 12) in
      let cr_ok := (5 <=? 6) && (6 <=? 8) in
      ok = freq_applied && sf_ok && cr_ok
      /\ _frequency mgr' = (if freq_applied then 868000000 else _frequency mgr)
      /\ _bandwidth mgr' = 250000
      /\ _spreadingFactor mgr' = (if sf_ok then 9 else _spreadingFactor mgr)
      /\ _codingRate mgr' = (if cr_ok then 6 else _codingRate mgr)
      /\ _syncWord mgr' = 52
      /\ evs = (if negb (868000000 =? _frequency mgr) then [SetFrequency 868000000] else [])
               ++ (if negb (250000 =? _bandwidth mgr) then [SetSignalBandwidth 250000] else [])
               ++ (if negb (9 =? _spreadingFactor mgr) && sf_ok
                   then [SetSpreadingFactor 9] else [])
               ++ (if negb (6 =? _codingRate mgr) && cr_ok then [SetCodingRate4 6] else [])
               ++ (if negb (52 =? _syncWord mgr) then [SetSyncWord 52] else [])
               ++ (if ok then [Saved (config_of mgr')] else [])
      /\ (forall c, In (Saved c) evs <-> ok = true /\ c = config_of mgr'))).
Proof.
  intros mgr.
  assert (Hi : _initialized mgr = true) by reflexivity.
  split; [exact Hi | exact (configure_outcome mgr 868000000 250000 9 6 52 true)].
Defined.


(** Claim C9, counterexample: on a manager whose radio is not initialized,
    spreading factor 99 is accepted ([true]) and cached; on an initialized
    manager, a new frequency with spreading factor 99 is rejected
    ([false]) but the new frequency has been applied. *)
Lemma configure_not_atomic :
  let uninit := mkManager false true 2 7 915000000 125000 7 5 18 0 0 true in
  let init := mkManager true true 2 7 915000000 125000 7 5 18 0 0 true in
  (fst (fst (configure uninit 915000000 125000 99 5 18 true)) = true
   /\ _spreadingFactor (snd (fst (configure uninit 915000000 125000 99 5 18 true))) = 99)
  /\ (fst (fst (configure init 868000000 125000 99 5 18 true)) = false
      /\ _frequency (snd (fst (configure init 868000000 125000 99 5 18 true))) = 868000000
      /\ snd (configure init 868000000 125000 99 5 18 true) = [SetFrequency 868000000]).
Proof. vm_compute. auto 10. Qed.

Lemma lor_shift_byte (hi lo : Z) :
  is_byte hi -> is_byte lo -> Z.lor (Z.shiftl hi 8) lo = hi * 256 + lo.
Proof.
  intros Hh Hl.
  assert (Hd : Z.land (Z.shiftl hi 8) lo = 0).
  { apply Z.bits_inj'; intros i Hi. rewrite Z.land_spec, Z.bits_0.
    destruct (Z.lt_ge_cases i 8).
    - rewrite Z.shiftl_spec_low by lia. reflexivity.
    - replace lo with (lo mod 2 ^ 8) by (apply Z.mod_small; unfold is_byte in Hl; lia).
      rewrite Z.mod_pow2_bits_high by lia. apply andb_false_r. }
  rewrite <- Z.lxor_lor by exact Hd. rewrite <- Z.add_nocarry_lxor by exact Hd.
  rewrite Z.shiftl_mul_pow2 by lia. reflexivity.
Qed.

Lemma read16_bytes (hi lo : Z) (r : list Z) (k : nat) :
  is_byte hi -> is_byte lo ->
  read16 (mkFifo (hi :: lo :: r) k) = (hi * 256 + lo, mkFifo r k).
Proof.
  intros Hh Hl. unfold read16, LoRa_read; cbn [fifo_bytes past_end].
  rewrite lor_shift_byte by assumption. unfold u16, is_byte in *.
  rewrite Z.mod_small by lia. reflexivity.
Qed.

Lemma sendAcknowledgment_keeps (mgr : LoRaManager) (p : LoRaPacket) :
  _lastRssi (fst (sendAcknowledgment mgr p)) = _lastRssi mgr
  /\ _lastSnr (fst (sendAcknowledgment mgr p)) = _lastSnr mgr
  /\ _messageCallback (fst (sendAcknowledgment mgr p)) = _messageCallback mgr.
Proof. unfold sendAcknowledgment, createPacket. cbn. auto. Qed.

(** Claim C8. On an initialized, enabled manager, a received frame with
    the full 8-byte header whose destination field (bytes 3 and 4, high
    byte first) is neither the broadcast id 0xFFFF nor this device's id
    produces no effect at all: the callback is not invoked and nothing is
    sent. A frame addressed to this device or broadcast is handed to the
    registered callback, and its RSSI and SNR are recorded. *)
Theorem update_address_filter (mgr : LoRaManager) (frame : list Z) (rssi snr : Z) :
  _initialized mgr = true -> _enabled mgr = true ->
  (8 <= List.length frame)%nat -> Forall is_byte frame ->
  let dst := nth 3 frame 0 * 256 + nth 4 frame 0 in
  let '(mgr', evs) := update mgr frame rssi snr in
  (dst <> _deviceId mgr -> dst <> 65535 -> evs = [])
  /\ (dst = _deviceId mgr \/ dst = 65535 ->
        _lastRssi mgr' = rssi /\ _lastSnr mgr' = snr
        /\ (_messageCallback mgr = true ->
              exists p, In (Dispatched p) evs /\ destId p = dst)).
Proof.
  intros Hi He Hlen Hb.
  destruct frame as [|b0 [|b1 [|b2 [|b3 [|b4 [|b5 [|b6 [|b7 rest]]]]]]]];
    cbn [List.length] in Hlen; try lia.
  apply Forall_cons_iff in Hb as [H0 Hb]; apply Forall_cons_iff in Hb as [H1 Hb];
  apply Forall_cons_iff in Hb as [H2 Hb]; apply Forall_cons_iff in Hb as [H3 Hb];
  apply Forall_cons_iff in Hb as [H4 Hb]; apply Forall_cons_iff in Hb as [H5 Hb];
  apply Forall_cons_iff in Hb as [H6 Hb]; apply Forall_cons_iff in Hb as [H7 _].
  cbn [nth].
  unfold update. rewrite Hi, He. cbn [negb orb].
  replace (Z.of_nat (List.length (b0 :: b1 :: b2 :: b3 :: b4 :: b5 :: b6 :: b7 :: rest)) >? 0)
    with true by (symmetry; apply Z.gtb_lt; cbn [List.length]; lia).
  unfold handleReceivedPacket, fifo_of, LoRa_available; cbn [fifo_bytes].
  match goal with
  | |- context [?x <? 8] =>
      replace (x <? 8) with false by (symmetry; apply Z.ltb_ge; cbn [List.length]; lia)
  end.
  unfold LoRa_read at 1; cbn [fifo_bytes past_end].
  rewrite (read16_bytes b1 b2) by assumption.
  rewrite (read16_bytes b3 b4) by assumption.
  rewrite (read16_bytes b5 b6) by assumption.
  unfold LoRa_read; cbn [fifo_bytes past_end].
  unfold set_signal; cbn [_deviceId _lastRssi _lastSnr _messageCallback].
  destruct (Z.eqb_spec (b3 * 256 + b4) (_deviceId mgr)) as [Hd|Hd], (Z.eqb_spec (b3 * 256 + b4) 65535) as [Hbc|Hbc];
    cbn [negb andb].
  4: { split; [intros; reflexivity|]. intros [H|H]; contradiction. }
  all: replace (u8 b7 >? LORA_MAX_PACKET_SIZE) with false
         by (symmetry; rewrite Z.gtb_ltb; apply Z.ltb_ge; unfold u8, LORA_MAX_PACKET_SIZE;
             pose proof (Z.mod_pos_bound b7 256); lia).
  all: destruct (read_available _ _) as [pl f6].
  all: try match goal with
       | |- context [if ?c then sendAcknowledgment ?m ?q else _] =>
           pose proof (sendAcknowledgment_keeps m q) as Hk;
           destruct c; [destruct (sendAcknowledgment m q) as [mgr2 acks] eqn:Ea|]
       end.
  all: cbv beta iota zeta.
  all: split; [intros; contradiction|]; intros _.
  all: try (cbn [fst _lastRssi _lastSnr _messageCallback] in Hk; destruct Hk as (-> & -> & ->)).
  all: cbn [_lastRssi _lastSnr _messageCallback].
  all: split; [reflexivity | split; [reflexivity |]]; intros Hcb; rewrite Hcb.
  all: eexists; split; [apply in_app_iff; right; left; reflexivity | reflexivity].
Qed.

Lemma update_address_filter_witness :
  let mgr := mkManager true true 2 7 915000000 125000 7 5 18 0 0 true in
  let frame := [0; 0; 5; 0; 2; 0; 9; 2; 104; 105] in
  _initialized mgr = true /\ _enabled mgr = true
  /\ (8 <= List.length frame)%nat /\ Forall is_byte frame /\
  (let dst := nth 3 frame 0 * 256 + nth 4 frame 0 in
   let '(mgr', evs) := update mgr frame (-40) 7 in
   (dst <> _deviceId mgr -> dst <> 65535 -> evs = [])
   /\ (dst = _deviceId mgr \/ dst = 65535 ->
         _lastRssi mgr' = -40 /\ _lastSnr mgr' = 7
         /\ (_messageCallback mgr = true ->
               exists p, In (Dispatched p) evs /\ destId p = dst))).
Proof.
  intros mgr frame.
  assert (Hi : _initialized mgr = true) by reflexivity.
  assert (He : _enabled mgr = true) by reflexivity.
  assert (Hl : (8 <= List.length frame)%nat) by (cbn; lia).
  assert (Hb : Forall is_byte frame).
  { repeat (apply Forall_cons; [unfold is_byte; lia|]). apply Forall_nil. }
  split; [exact Hi | split; [exact He | split; [exact Hl | split; [exact Hb |]]]].
  exact (update_address_filter mgr frame (-40) 7 Hi He Hl Hb).
Defined.


End CommsFacts.

(** * Further properties of the HAL module *)

Module HalMore.
Import Hal HalFacts.

Lemma decode_encode_frame (p : LoRaPacket) (extra : list Z) :
  wf_packet p -> decode (fifo_of (encode p ++ extra)) = (Some p, mkFifo extra 0).
Proof.
  intros (Hd & Hs & Hi & Hf & Hl & Hlen & Hpl).
  destruct p as [d s i fl l pl]; cbn [destination source id flags length payload] in *.
  unfold encode, decode, fifo_of; cbn [destination source id flags length payload app].
  unfold LoRa_read; cbn [fifo_bytes past_end].
  rewrite (u8_byte l) by (unfold is_byte, PAYLOAD_SIZE in *; lia).
  replace (l >? PAYLOAD_SIZE) with false by (symmetry; rewrite Z.gtb_ltb; apply Z.ltb_ge; unfold PAYLOAD_SIZE in *; lia).
  rewrite <- Hlen, Nat2Z.id, firstn_all.
  rewrite (read_payload_bytes pl extra 0 Hpl), !u8_byte by assumption. reflexivity.
Qed.

(** [receivePacket]'s reader takes exactly the header and [length]
    payload bytes of a well-formed packet's frame: bytes after them are
    left unread in the FIFO and do not change the packet. *)
Theorem decode_ignores_trailing (p : LoRaPacket) (extra : list Z) :
  wf_packet p -> decode (fifo_of (encode p ++ extra)) = (Some p, mkFifo extra 0).
Proof. intros Hwf. exact (decode_encode_frame p extra Hwf). Qed.

Lemma decode_ignores_trailing_witness :
  let p := mkPacket 2 1 7 LORA_FLAG_RELIABLE 3 [104; 105; 33] in
  wf_packet p /\ decode (fifo_of (encode p ++ [9; 9])) = (Some p, mkFifo [9; 9] 0).
Proof.
  intros p.
  assert (H : wf_packet p).
  { unfold wf_packet, PAYLOAD_SIZE; cbn.
    split; [unfold is_byte; lia|]. split; [unfold is_byte; lia|].
    split; [unfold is_byte; lia|]. split; [unfold is_byte, LORA_FLAG_RELIABLE; lia|].
    split; [lia|]. split; [reflexivity|].
    repeat (apply Forall_cons; [unfold is_byte; lia|]). apply Forall_nil. }
  split; [exact H | exact (decode_ignores_trailing p [9; 9] H)].
Defined.

Lemma send_unreliable_shape (m : LoRaModule) (p : LoRaPacket) (timeout : Z) (tx_ok : bool)
  (polls : list (Z * option (list Z))) :
  _available m = true -> has_flag (flags p) LORA_FLAG_RELIABLE = false ->
  sendPacket m p timeout tx_ok polls
  = (if tx_ok then OK else ERROR, fst (fst (transmit m p)), snd (fst (transmit m p)),
     [encode (snd (fst (transmit m p)))]).
Proof.
  intros Ha Hr. pose proof (transmit_spec m p Ha) as Ht.
  unfold sendPacket. rewrite Ha. cbn [negb].
  destruct (transmit m p) as [[m1 p1] fr].
  destruct Ht as (_ & _ & _ & -> & _ & _ & _ & Hf & _).
  cbn [fst snd]. destruct tx_ok; [|reflexivity]. cbn [negb].
  rewrite Hf, Hr. reflexivity.
Qed.

(** A send without the RELIABLE flag on an available module writes
    exactly one frame, the encoding of the stamped packet: it returns
    [OK] when [LoRa.endPacket()] succeeds and [ERROR]
    otherwise, leaves the module in TRANSMIT mode, advances the 8-bit
    packet counter only when the caller's id is 0, and changes no other
    setting. *)
Theorem sendPacket_unreliable (m : LoRaModule) (p : LoRaPacket) (timeout : Z) (tx_ok : bool)
  (polls : list (Z * option (list Z))) :
  _available m = true -> has_flag (flags p) LORA_FLAG_RELIABLE = false ->
  let '(st, m', p', sent) := sendPacket m p timeout tx_ok polls in
  st = (if tx_ok then OK else ERROR) /\ sent = [encode p'] /\ _mode m' = TRANSMIT
  /\ _packetId m' = (if id p =? 0 then u8 (_packetId m + 1) else _packetId m)
  /\ _available m' = true /\ _frequency m' = _frequency m /\ _bandwidth m' = _bandwidth m
  /\ _spreadingFactor m' = _spreadingFactor m /\ _codingRate m' = _codingRate m
  /\ _syncWord m' = _syncWord m /\ _txPower m' = _txPower m
  /\ _nodeAddress m' = _nodeAddress m /\ _timeout m' = _timeout m.
Proof.
  intros Ha Hr. rewrite (send_unreliable_shape m p timeout tx_ok polls Ha Hr).
  destruct m as [a f bw sf cr sw tx md na to pid]; cbn in Ha; subst a.
  unfold transmit, setMode.
  destruct md; cbn [mode_eqb _mode negb]; cbn [id _packetId _nodeAddress];
    destruct (id p =? 0); cbn; repeat split.
Qed.

Lemma wf_stamped (m : LoRaModule) (p : LoRaPacket) :
  _available m = true -> is_byte (_nodeAddress m) -> is_byte (destination p)
  -> is_byte (id p) -> is_byte (flags p) -> 0 <= length p <= PAYLOAD_SIZE
  -> Z.of_nat (List.length (payload p)) = length p -> Forall is_byte (payload p)
  -> wf_packet (snd (fst (transmit m p))).
Proof.
  intros Ha Hn Hd Hi Hf Hl Hlen Hpl. pose proof (transmit_spec m p Ha) as Ht.
  destruct (transmit m p) as [[m1 p1] fr]; cbn [fst snd].
  destruct Ht as (_ & _ & _ & _ & Hs & Hid & Hd' & Hf' & Hl' & Hp').
  unfold wf_packet. rewrite Hs, Hid, Hd', Hf', Hl', Hp'.
  split; [exact Hd|]. split; [exact Hn|].
  split; [destruct (id p =? 0); [unfold is_byte, u8; apply Z.mod_pos_bound; lia | exact Hi]|].
  split; [exact Hf|]. split; [exact Hl|]. split; [exact Hlen | exact Hpl].
Qed.

(** End to end: the frame an available module sends for a packet
    without the RELIABLE flag (byte-valued fields, at most 240 payload
    bytes) is read by any available module's [receivePacket] as exactly the
    stamped packet, with status [OK] and no reply; [receivePacket] does not
    filter on the destination. *)
Theorem send_receive_unreliable (mA mB : LoRaModule) (p : LoRaPacket) (timeout : Z)
  (polls : list (Z * option (list Z))) :
  _available mA = true -> _available mB = true -> is_byte (_nodeAddress mA)
  -> is_byte (destination p) -> is_byte (id p) -> is_byte (flags p)
  -> 0 <= length p <= PAYLOAD_SIZE -> Z.of_nat (List.length (payload p)) = length p
  -> Forall is_byte (payload p) -> has_flag (flags p) LORA_FLAG_RELIABLE = false ->
  let '(st, _, p', sent) := sendPacket mA p timeout true polls in
  st = OK /\ sent = [encode p']
  /\ receivePacket mB (Some (encode p')) = (OK, enter_receive mB, Some p', []).
Proof.
  intros HaA HaB Hn Hd Hi Hf Hl Hlen Hpl Hr.
  pose proof (wf_stamped mA p HaA Hn Hd Hi Hf Hl Hlen Hpl) as Hwf.
  pose proof (transmit_spec mA p HaA) as Ht.
  rewrite (send_unreliable_shape mA p timeout true polls HaA Hr).
  destruct (transmit mA p) as [[m1 p1] fr]; cbn [fst snd] in *.
  destruct Ht as (_ & _ & _ & _ & _ & _ & _ & Hf' & _).
  split; [reflexivity | split; [reflexivity|]].
  unfold receivePacket. rewrite HaB. cbn [negb].
  pose proof (decode_encode_frame p1 [] Hwf) as Hdec. rewrite app_nil_r in Hdec.
  rewrite Hdec. cbn [fst]. rewrite Hf', Hr. cbn [andb].
  destruct (_ && _); reflexivity.
Qed.

(** The automatic ACK: when an available module receives a reliable,
    non-ACK packet with an id other than 0 addressed to it or broadcast, it
    returns the packet and sends one frame, which decodes to an ACK that
    the sender's ACK test accepts exactly when the packet was addressed to
    the receiver itself (for a broadcast the ACK's source is not the
    broadcast address the sender waits for). *)
Theorem auto_ack_accepted (mA mB : LoRaModule) (q : LoRaPacket) :
  _available mB = true -> wf_packet q -> is_byte (_nodeAddress mB)
  -> (destination q = _nodeAddress mB \/ destination q = 255)
  -> has_flag (flags q) LORA_FLAG_RELIABLE = true -> has_flag (flags q) LORA_FLAG_ACK = false
  -> id q <> 0 -> _nodeAddress mA = source q ->
  exists mB' fr a,
    receivePacket mB (Some (encode q)) = (OK, mB', Some q, [fr])
    /\ fst (decode (fifo_of fr)) = Some a
    /\ ack_matches mA q a = (destination q =? _nodeAddress mB).
Proof.
  intros HaB Hwf Hn Hdst Hr Hack Hid HA.
  pose proof Hwf as (Hd & Hs & Hi & Hf & Hl & Hlen & Hpl).
  destruct (enter_receive_keeps mB HaB) as [Ha1 Hn1].
  unfold receivePacket. rewrite HaB. cbn [negb].
  pose proof (decode_encode_frame q [] Hwf) as Hdec. rewrite app_nil_r in Hdec.
  rewrite Hdec. cbn [fst]. rewrite Hn1.
  replace (negb (destination q =? _nodeAddress mB) && negb (destination q =? 255)) with false
    by (destruct Hdst as [-> | ->]; [rewrite Z.eqb_refl | rewrite (Z.eqb_refl 255), andb_false_r]; reflexivity).
  rewrite Hr, Hack. cbn [negb andb].
  set (ackPacket := mkPacket (source q) (_nodeAddress mB) (id q) LORA_FLAG_ACK 0 []).
  pose proof (transmit_spec (enter_receive mB) ackPacket Ha1) as Ht.
  destruct (transmit (enter_receive mB) ackPacket) as [[m2 a] fr].
  destruct Ht as (_ & _ & _ & -> & Hsa & Hida & Hda & Hfa & Hla & Hpa).
  cbn [ackPacket destination source id flags length payload] in *.
  rewrite Hn1 in Hsa.
  replace (id q =? 0) with false in Hida by (symmetry; apply Z.eqb_neq; exact Hid).
  assert (Hwa : wf_packet a).
  { unfold wf_packet. rewrite Hsa, Hida, Hda, Hfa, Hla, Hpa. cbn [List.length Z.of_nat].
    unfold is_byte, LORA_FLAG_ACK, PAYLOAD_SIZE in *. split; [lia|]. split; [lia|]. split; [lia|].
    split; [lia|]. split; [lia|]. split; [reflexivity | constructor]. }
  pose proof (decode_encode_frame a [] Hwa) as Hdec'. rewrite app_nil_r in Hdec'.
  exists m2, (encode a), a. split; [reflexivity|]. rewrite Hdec'. split; [reflexivity|].
  unfold ack_matches. rewrite Hfa, Hida, Hda, Hsa, HA, !Z.eqb_refl.
  rewrite (Z.eqb_sym (destination q)). reflexivity.
Qed.

(** Lifecycle: a successful [begin] makes the module available in
    RECEIVE mode on the given frequency, keeping the other settings; a
    failed one leaves it unavailable; [end] always leaves it unavailable,
    puts an available module to SLEEP, and a second [end] does nothing. *)
Theorem begin_end_lifecycle (m : LoRaModule) (frequency : Z) :
  (let '(ok, m1) := begin m frequency true in
   ok = true /\ _available m1 = true /\ _mode m1 = RECEIVE /\ _frequency m1 = frequency
   /\ _bandwidth m1 = _bandwidth m /\ _spreadingFactor m1 = _spreadingFactor m
   /\ _codingRate m1 = _codingRate m /\ _syncWord m1 = _syncWord m
   /\ _txPower m1 = _txPower m /\ _nodeAddress m1 = _nodeAddress m
   /\ _packetId m1 = _packetId m)
  /\ (let '(ok, m1) := begin m frequency false in
      ok = false /\ _available m1 = false /\ _frequency m1 = frequency)
  /\ _available (end_ m) = false
  /\ (_available m = true -> _mode (end_ m) = SLEEP)
  /\ end_ (end_ m) = end_ m.
Proof.
  destruct m as [a f bw sf cr sw tx md na to pid].
  unfold begin, end_, setMode; destruct a; cbn; repeat split; try (intro; discriminate).
Qed.

(** On an unavailable module (a new one, or after a failed [begin] or
    [end]) the guarded setters (frequency, bandwidth, spreading factor,
    coding rate, sync word, TX power) and [setMode] fail without changing
    anything,
    [sendPacket] returns [ERROR] without touching the caller's packet or
    transmitting, [receivePacket] returns [ERROR], [isPacketAvailable]
    returns [false], and the signal getters return the sentinels -150,
    -20 and 0. *)
Theorem unavailable_module_inert (m : LoRaModule) :
  _available m = false ->
  (forall f, setFrequency m f = (false, m))
  /\ (forall bw, setBandwidth m bw = (false, m))
  /\ (forall sf, setSpreadingFactor m sf = (false, m))
  /\ (forall cr, setCodingRate m cr = (false, m))
  /\ (forall sw, setSyncWord m sw = (false, m))
  /\ (forall pw, setTxPower m pw = (false, m))
  /\ (forall mode, setMode m mode = (false, m))
  /\ (forall p timeout tx_ok polls, sendPacket m p timeout tx_ok polls = (ERROR, m, p, []))
  /\ (forall arrival, receivePacket m arrival = (ERROR, m, None, []))
  /\ (forall parsed, isPacketAvailable m parsed = (false, m))
  /\ (forall r, getPacketRssi m r = -150) /\ (forall r, getPacketSnr m r = -20)
  /\ (forall r, getPacketFrequencyError m r = 0).
Proof.
  intros Ha.
  unfold setFrequency, setBandwidth, setSpreadingFactor, setCodingRate, setSyncWord,
    setTxPower, setMode, sendPacket, receivePacket, isPacketAvailable, getPacketRssi,
    getPacketSnr, getPacketFrequencyError.
  rewrite Ha. cbn [negb]. repeat split.
Qed.

Lemma estimatedAirtime_sd (sf bw : Z) :
  estimatedAirtime sf bw
  = symbolDuration sf bw * 8 + (symbolDuration sf bw * 17) / 4
    + symbolDuration sf bw * (8 + 160 / (4 * sf)).
Proof. reflexivity. Qed.

Lemma symbolDuration_nonneg (sf bw : Z) : 0 <= sf -> 0 < bw -> 0 <= symbolDuration sf bw.
Proof.
  intros Hs Hb. unfold symbolDuration. apply Z.div_pos; [|lia].
  pose proof (Z.pow_pos_nonneg 2 sf ltac:(lia) Hs). lia.
Qed.

(** The airtime estimate of [waitForTxReady] never grows with the
    bandwidth and never shrinks when the spreading factor grows by one,
    over the spreading factors 6..12. *)
Theorem airtime_monotone (sf bw1 bw2 : Z) :
  6 <= sf <= 12 -> 0 < bw1 <= bw2 ->
  estimatedAirtime sf bw2 <= estimatedAirtime sf bw1
  /\ (sf < 12 -> estimatedAirtime sf bw1 <= estimatedAirtime (sf + 1) bw1).
Proof.
  intros Hsf Hbw. rewrite !estimatedAirtime_sd. split.
  - assert (Hsd : symbolDuration sf bw2 <= symbolDuration sf bw1).
    { unfold symbolDuration. apply Z.div_le_compat_l; [|lia].
      pose proof (Z.pow_pos_nonneg 2 sf ltac:(lia) ltac:(lia)). lia. }
    pose proof (symbolDuration_nonneg sf bw2 ltac:(lia) ltac:(lia)).
    assert (Hk : 0 <= 8 + 160 / (4 * sf)) by (pose proof (Z.div_pos 160 (4 * sf)); lia).
    pose proof (Z.div_le_mono (symbolDuration sf bw2 * 17) (symbolDuration sf bw1 * 17) 4
                  ltac:(lia) ltac:(lia)).
    nia.
  - intros Hlt.
    set (sd := symbolDuration sf bw1). set (sd' := symbolDuration (sf + 1) bw1).
    assert (H2 : 2 * sd <= sd').
    { unfold sd, sd', symbolDuration. rewrite Z.pow_add_r, Z.pow_1_r by lia.
      set (c := 1000 * 2 ^ sf * 1000).
      replace (1000 * (2 ^ sf * 2) * 1000) with (2 * c) by (unfold c; ring).
      pose proof (Z.mul_div_le c bw1 ltac:(lia)).
      apply Z.div_le_lower_bound; lia. }
    pose proof (symbolDuration_nonneg sf bw1 ltac:(lia) ltac:(lia)) as H0. fold sd in H0.
    pose proof (Z.div_le_mono (sd * 17) (sd' * 17) 4 ltac:(lia) ltac:(lia)).
    assert (Hk : 160 / (4 * sf) - 1 <= 160 / (4 * (sf + 1)) /\ 0 <= 160 / (4 * (sf + 1))
                 /\ 160 / (4 * sf) <= 14).
    { assert (sf = 6 \/ sf = 7 \/ sf = 8 \/ sf = 9 \/ sf = 10 \/ sf = 11) as Hc by lia.
      destruct Hc as [-> | [-> | [-> | [-> | [-> | ->]]]]]; cbn; lia. }
    nia.
Qed.

Lemma sendPacket_unreliable_witness :
  let m := mkModule true 915000000 125000 7 5 18 17 RECEIVE 1 1000 255 in
  let p := mkPacket 2 9 0 0 1 [7] in
  _available m = true /\ has_flag (flags p) LORA_FLAG_RELIABLE = false /\
  (let '(st, m', p', sent) := sendPacket m p 0 true [] in
   st = OK /\ sent = [encode p'] /\ _mode m' = TRANSMIT
   /\ _packetId m' = (if id p =? 0 then u8 (_packetId m + 1) else _packetId m)
   /\ _available m' = true /\ _frequency m' = _frequency m /\ _bandwidth m' = _bandwidth m
   /\ _spreadingFactor m' = _spreadingFactor m /\ _codingRate m' = _codingRate m
   /\ _syncWord m' = _syncWord m /\ _txPower m' = _txPower m
   /\ _nodeAddress m' = _nodeAddress m /\ _timeout m' = _timeout m).
Proof.
  intros m p.
  assert (Ha : _available m = true) by reflexivity.
  assert (Hr : has_flag (flags p) LORA_FLAG_RELIABLE = false) by reflexivity.
  split; [exact Ha | split; [exact Hr | exact (sendPacket_unreliable m p 0 true [] Ha Hr)]].
Defined.

Lemma send_receive_unreliable_witness :
  let mA := mkModule true 915000000 125000 7 5 18 17 RECEIVE 1 1000 0 in
  let mB := mkModule true 915000000 125000 7 5 18 17 STANDBY 3 1000 0 in
  let p := mkPacket 2 9 0 0 2 [104; 105] in
  _available mA = true /\ _available mB = true /\
  (let '(st, _, p', sent) := sendPacket mA p 0 true [] in
   st = OK /\ sent = [encode p']
   /\ receivePacket mB (Some (encode p')) = (OK, enter_receive mB, Some p', [])).
Proof.
  intros mA mB p.
  assert (HaA : _available mA = true) by reflexivity.
  assert (HaB : _available mB = true) by reflexivity.
  split; [exact HaA | split; [exact HaB|]].
  apply (send_receive_unreliable mA mB p 0 [] HaA HaB);
    try (unfold is_byte, PAYLOAD_SIZE; cbn; lia); try reflexivity.
  repeat (apply Forall_cons; [unfold is_byte; lia|]). apply Forall_nil.
Defined.

Lemma auto_ack_accepted_witness :
  let mA := mkModule true 915000000 125000 7 5 18 17 RECEIVE 5 1000 0 in
  let mB := mkModule true 915000000 125000 7 5 18 17 RECEIVE 2 1000 0 in
  let q := mkPacket 2 5 9 LORA_FLAG_RELIABLE 0 [] in
  _available mB = true /\ wf_packet q /\
  exists mB' fr a,
    receivePacket mB (Some (encode q)) = (OK, mB', Some q, [fr])
    /\ fst (decode (fifo_of fr)) = Some a
    /\ ack_matches mA q a = (destination q =? _nodeAddress mB).
Proof.
  intros mA mB q.
  assert (HaB : _available mB = true) by reflexivity.
  assert (Hwf : wf_packet q).
  { unfold wf_packet, PAYLOAD_SIZE; cbn; unfold is_byte, LORA_FLAG_RELIABLE.
    split; [lia|]. split; [lia|]. split; [lia|]. split; [lia|]. split; [lia|].
    split; [reflexivity | constructor]. }
  split; [exact HaB | split; [exact Hwf|]].
  apply (auto_ack_accepted mA mB q HaB Hwf);
    try (unfold is_byte; cbn; lia); try reflexivity.
Defined.

Lemma begin_end_lifecycle_witness :
  let m := snd (begin LoRaModule_new 868000000 true) in
  _available m = true /\
  ((let '(ok, m1) := begin m 915000000 true in
    ok = true /\ _available m1 = true /\ _mode m1 = RECEIVE /\ _frequency m1 = 915000000
    /\ _bandwidth m1 = _bandwidth m /\ _spreadingFactor m1 = _spreadingFactor m
    /\ _codingRate m1 = _codingRate m /\ _syncWord m1 = _syncWord m
    /\ _txPower m1 = _txPower m /\ _nodeAddress m1 = _nodeAddress m
    /\ _packetId m1 = _packetId m)
   /\ (let '(ok, m1) := begin m 915000000 false in
       ok = false /\ _available m1 = false /\ _frequency m1 = 915000000)
   /\ _available (end_ m) = false
   /\ (_available m = true -> _mode (end_ m) = SLEEP)
   /\ end_ (end_ m) = end_ m).
Proof.
  intros m.
  assert (Ha : _available m = true) by reflexivity.
  split; [exact Ha | exact (begin_end_lifecycle m 915000000)].
Defined.

Lemma unavailable_module_inert_witness :
  _available LoRaModule_new = false
  /\ (forall p timeout tx_ok polls,
        sendPacket LoRaModule_new p timeout tx_ok polls = (ERROR, LoRaModule_new, p, [])).
Proof.
  assert (Ha : _available LoRaModule_new = false) by reflexivity.
  split; [exact Ha|].
  destruct (unavailable_module_inert LoRaModule_new Ha) as (_ & _ & _ & _ & _ & _ & _ & H & _).
  exact H.
Defined.

Lemma airtime_monotone_witness :
  (6 <= 7 <= 12) /\ (0 < 125000 <= 250000) /\
  estimatedAirtime 7 250000 <= estimatedAirtime 7 125000
  /\ (7 < 12 -> estimatedAirtime 7 125000 <= estimatedAirtime (7 + 1) 125000).
Proof.
  assert (Hs : 6 <= 7 <= 12) by lia.
  assert (Hb : 0 < 125000 <= 250000) by lia.
  split; [exact Hs | split; [exact Hb | exact (airtime_monotone 7 125000 250000 Hs Hb)]].
Defined.

End HalMore.

(** * Further properties of the manager *)

Module CommsMore.
Import Comms CommsFacts.

Lemma u8_small (x : Z) : 0 <= x < 256 -> u8 x = x.
Proof. unfold u8; intros; apply Z.mod_small; lia. Qed.

Lemma hi_byte (x : Z) : 0 <= x < 65536 -> u8 (Z.shiftr x 8) = x / 256.
Proof.
  intros H. rewrite Z.shiftr_div_pow2 by lia. apply u8_small.
  change (2 ^ 8) with 256. split; [apply Z.div_pos; lia | apply Z.div_lt_upper_bound; lia].
Qed.

Lemma lo_byte (x : Z) : 0 <= x -> u8 (Z.land x 255) = x mod 256.
Proof.
  intros H. change 255 with (Z.ones 8). rewrite Z.land_ones by lia.
  apply u8_small. apply Z.mod_pos_bound. lia.
Qed.

Lemma split16 (x : Z) : 0 <= x < 65536 -> x / 256 * 256 + x mod 256 = x.
Proof. intros H. pose proof (Z.div_mod x 256 ltac:(lia)). lia. Qed.

Lemma byte_hi (x : Z) : 0 <= x < 65536 -> is_byte (x / 256).
Proof. intros H. unfold is_byte. split; [apply Z.div_pos; lia | apply Z.div_lt_upper_bound; lia]. Qed.

Lemma byte_lo (x : Z) : is_byte (x mod 256).
Proof. unfold is_byte. apply Z.mod_pos_bound. lia. Qed.

Lemma read_available_all (bs : list Z) (n : nat) (k : nat) :
  Forall is_byte bs -> (List.length bs <= n)%nat ->
  read_available n (mkFifo bs k) = (bs, mkFifo [] k).
Proof.
  intros Hb; revert n; induction Hb as [|b bs Hb1 _ IH]; intros n Hn.
  - destruct n; reflexivity.
  - destruct n as [|n]; cbn [List.length] in Hn; [lia|].
    cbn [read_available]. unfold LoRa_available, LoRa_read; cbn [fifo_bytes past_end].
    replace (Z.of_nat (List.length (b :: bs)) >? 0) with true
      by (symmetry; apply Z.gtb_lt; cbn [List.length]; lia).
    rewrite IH by lia. rewrite u8_small by exact Hb1. reflexivity.
Qed.

(** The bytes of [frame_of p] for a packet whose fields fit their types. *)
Lemma frame_of_bytes (p : LoRaPacket) :
  is_byte (messageType p) -> 0 <= sourceId p < 65536 -> 0 <= destId p < 65536
  -> 0 <= packetId p < 65536 -> is_byte (length p)
  -> (List.length (payload p) <= Z.to_nat (length p))%nat ->
  frame_of p = [messageType p; sourceId p / 256; sourceId p mod 256;
                destId p / 256; destId p mod 256; packetId p / 256; packetId p mod 256;
                length p] ++ payload p.
Proof.
  intros Hm Hs Hd Hi Hl Hn. unfold frame_of.
  rewrite !hi_byte, !lo_byte by lia. rewrite !u8_small by assumption.
  rewrite firstn_all2 by exact Hn. reflexivity.
Qed.

Lemma update_frame_of (mgr : LoRaManager) (p : LoRaPacket) (rssi snr : Z) :
  _initialized mgr = true -> _enabled mgr = true ->
  is_byte (messageType p) -> 0 <= sourceId p < 65536 -> 0 <= destId p < 65536
  -> 0 <= packetId p < 65536 -> is_byte (length p)
  -> (List.length (payload p) <= Z.to_nat (length p))%nat -> Forall is_byte (payload p)
  -> (destId p = _deviceId mgr \/ destId p = 65535) ->
  update mgr (frame_of p) rssi snr =
  (if negb (destId p =? 65535) && negb (messageType p =? LORA_MSG_ACK) then
     (set_packetCounter (set_signal mgr rssi snr) (u16 (_packetCounter mgr + 1)),
      Sent (frame_of (ack_of mgr p)) :: (if _messageCallback mgr then [Dispatched p] else []))
   else
     (set_signal mgr rssi snr, if _messageCallback mgr then [Dispatched p] else [])).
Proof.
  intros Hi He Hm Hs Hd Hpi Hl Hn Hpl Hdst.
  rewrite frame_of_bytes by assumption.
  unfold update. rewrite Hi, He. cbn [negb orb].
  replace (Z.of_nat (List.length (_ ++ payload p)) >? 0) with true
    by (symmetry; apply Z.gtb_lt; cbn [List.length app]; lia).
  unfold handleReceivedPacket, fifo_of, LoRa_available; cbn [fifo_bytes app].
  match goal with
  | |- context [?x <? 8] =>
      replace (x <? 8) with false by (symmetry; apply Z.ltb_ge; cbn [List.length]; lia)
  end.
  unfold LoRa_read at 1; cbn [fifo_bytes past_end].
  rewrite (read16_bytes (sourceId p / 256) (sourceId p mod 256)) by (apply byte_hi || apply byte_lo; lia).
  rewrite (read16_bytes (destId p / 256) (destId p mod 256)) by (apply byte_hi || apply byte_lo; lia).
  rewrite (read16_bytes (packetId p / 256) (packetId p mod 256)) by (apply byte_hi || apply byte_lo; lia).
  rewrite !split16 by assumption.
  unfold LoRa_read; cbn [fifo_bytes past_end].
  rewrite !u8_small by assumption.
  unfold set_signal at 1; cbn [_deviceId].
  replace (negb (destId p =? _deviceId mgr) && negb (destId p =? 65535)) with false
    by (destruct Hdst as [-> | ->]; [rewrite Z.eqb_refl | rewrite (Z.eqb_refl 65535), andb_false_r]; reflexivity).
  replace (length p >? LORA_MAX_PACKET_SIZE) with false
    by (symmetry; rewrite Z.gtb_ltb; apply Z.ltb_ge; unfold is_byte, LORA_MAX_PACKET_SIZE in *; lia).
  rewrite read_available_all by assumption.
  destruct p as [mt s d i l pl]; cbn [messageType sourceId destId packetId length payload] in *.
  destruct (negb (d =? 65535) && negb (mt =? LORA_MSG_ACK)); [|reflexivity].
  unfold sendAcknowledgment, createPacket, sendPacket, ack_of.
  assert (Hpay : firstn (Z.to_nat 2) [Z.land (Z.shiftr i 8) 255; Z.land i 255]
                 = [i / 256; i mod 256]).
  { rewrite Z.shiftr_div_pow2 by lia. change (2 ^ 8) with 256.
    change 255 with (Z.ones 8). rewrite !Z.land_ones by lia. change (2 ^ 8) with 256.
    rewrite (Z.mod_small (i / 256) 256) by (apply byte_hi; lia). reflexivity. }
  cbn [set_signal set_packetCounter _initialized _enabled _deviceId _packetCounter
       _messageCallback fst snd sourceId packetId].
  rewrite Hi, He. cbn [negb orb snd]. rewrite Hpay. reflexivity.
Qed.

(** Round trip of the manager's frame: a frame written by [sendPacket]
    for a packet whose fields fit their C types, addressed to this device
    or broadcast, is delivered by [update] to the registered callback as
    the same packet, with the signal recorded; a unicast non-ACK packet is
    first answered by one ACK frame, which consumes a packet id. *)
Theorem receive_round_trip (mgr : LoRaManager) (p : LoRaPacket) (rssi snr : Z) :
  _initialized mgr = true -> _enabled mgr = true ->
  is_byte (messageType p) -> 0 <= sourceId p < 65536 -> 0 <= destId p < 65536
  -> 0 <= packetId p < 65536 -> is_byte (length p)
  -> Z.of_nat (List.length (payload p)) = length p -> Forall is_byte (payload p)
  -> (destId p = _deviceId mgr \/ destId p = 65535) ->
  let '(mgr', evs) := update mgr (frame_of p) rssi snr in
  _lastRssi mgr' = rssi /\ _lastSnr mgr' = snr
  /\ evs = (if negb (destId p =? 65535) && negb (messageType p =? LORA_MSG_ACK)
            then [Sent (frame_of (ack_of mgr p))] else [])
           ++ (if _messageCallback mgr then [Dispatched p] else [])
  /\ _packetCounter mgr'
     = (if negb (destId p =? 65535) && negb (messageType p =? LORA_MSG_ACK)
        then u16 (_packetCounter mgr + 1) else _packetCounter mgr).
Proof.
  intros Hi He Hm Hs Hd Hpi Hl Hlen Hpl Hdst.
  rewrite update_frame_of by (assumption || lia).
  destruct (_ && _); cbn; auto.
Qed.

(** The manager's ACK: for a unicast non-ACK packet, the receiver sends
    one ACK frame addressed to the packet's source, carrying the packet id
    big-endian in its two payload bytes; the original sender's [update]
    hands that ACK to its callback and sends nothing back. *)
Theorem ack_reaches_sender (mgrA mgrB : LoRaManager) (p : LoRaPacket) (rssi snr rssi' snr' : Z) :
  _initialized mgrB = true -> _enabled mgrB = true
  -> _initialized mgrA = true -> _enabled mgrA = true
  -> 0 <= _deviceId mgrB < 65536 -> 0 <= _packetCounter mgrB < 65536
  -> is_byte (messageType p) -> 0 <= sourceId p < 65536 -> 0 <= packetId p < 65536
  -> is_byte (length p) -> Z.of_nat (List.length (payload p)) = length p
  -> Forall is_byte (payload p)
  -> destId p = _deviceId mgrB -> destId p <> 65535 -> messageType p <> LORA_MSG_ACK
  -> sourceId p = _deviceId mgrA ->
  exists ack,
    snd (update mgrB (frame_of p) rssi snr)
      = Sent (frame_of ack) :: (if _messageCallback mgrB then [Dispatched p] else [])
    /\ messageType ack = LORA_MSG_ACK /\ destId ack = sourceId p
    /\ nth 0 (payload ack) 0 * 256 + nth 1 (payload ack) 0 = packetId p
    /\ update mgrA (frame_of ack) rssi' snr'
       = (set_signal mgrA rssi' snr', if _messageCallback mgrA then [Dispatched ack] else []).
Proof.
  intros HiB HeB HiA HeA HdB HcB Hm Hs Hpi Hl Hlen Hpl Hd Hnb Hna HsA.
  assert (HdB' : 0 <= destId p < 65536) by lia.
  rewrite update_frame_of by (assumption || lia || (left; assumption)).
  replace (negb (destId p =? 65535) && negb (messageType p =? LORA_MSG_ACK)) with true
    by (symmetry; apply andb_true_intro; split; apply negb_true_iff, Z.eqb_neq; assumption).
  exists (ack_of mgrB p). cbn [snd]. split; [reflexivity|].
  split; [reflexivity|]. split; [reflexivity|].
  split; [cbn [ack_of payload nth]; apply split16; exact Hpi|].
  rewrite update_frame_of; cbn [ack_of messageType sourceId destId packetId length payload].
  - replace (LORA_MSG_ACK =? LORA_MSG_ACK) with true by reflexivity.
    rewrite andb_false_r. reflexivity.
  - exact HiA.
  - exact HeA.
  - unfold is_byte, LORA_MSG_ACK; lia.
  - exact HdB.
  - lia.
  - exact HcB.
  - unfold is_byte; lia.
  - cbn; lia.
  - constructor; [apply byte_hi; exact Hpi | constructor; [apply byte_lo | constructor]].
  - left; exact HsA.
Qed.

(** A frame cut short inside its payload (fewer bytes than its length
    byte declares) is not rejected: it is delivered with the declared
    length and only the bytes that arrived. *)
Theorem truncated_frame_dispatched (mgr : LoRaManager) (p : LoRaPacket) (rssi snr : Z) :
  _initialized mgr = true -> _enabled mgr = true -> _messageCallback mgr = true ->
  is_byte (messageType p) -> 0 <= sourceId p < 65536 -> 0 <= destId p < 65536
  -> 0 <= packetId p < 65536 -> is_byte (length p)
  -> Z.of_nat (List.length (payload p)) < length p -> Forall is_byte (payload p)
  -> (destId p = _deviceId mgr \/ destId p = 65535) ->
  frame_of p = [messageType p; sourceId p / 256; sourceId p mod 256;
                destId p / 256; destId p mod 256; packetId p / 256; packetId p mod 256;
                length p] ++ payload p
  /\ In (Dispatched p) (snd (update mgr (frame_of p) rssi snr)).
Proof.
  intros Hi He Hcb Hm Hs Hd Hpi Hl Hlen Hpl Hdst.
  split; [apply frame_of_bytes; (assumption || lia)|].
  rewrite update_frame_of by (assumption || lia).
  rewrite Hcb. destruct (_ && _); cbn [snd]; auto with datatypes.
Qed.

(** [update] does nothing, not even record the signal, on a manager
    that is uninitialized or disabled, or for a frame shorter than the
    8-byte header. *)
Theorem update_ignores (mgr : LoRaManager) (frame : list Z) (rssi snr : Z) :
  _initialized mgr = false \/ _enabled mgr = false \/ (List.length frame < 8)%nat ->
  update mgr frame rssi snr = (mgr, []).
Proof.
  intros H. unfold update.
  destruct (_initialized mgr) eqn:Hi, (_enabled mgr) eqn:He; cbn [negb orb]; try reflexivity.
  destruct H as [H|[H|H]]; try discriminate.
  destruct (Z.of_nat (List.length frame) >? 0); [|reflexivity].
  unfold handleReceivedPacket, LoRa_available, fifo_of; cbn [fifo_bytes].
  replace (Z.of_nat (List.length frame) <? 8) with true by (symmetry; apply Z.ltb_lt; lia).
  reflexivity.
Qed.

(** [sendTextMessage] fails without effect on an uninitialized or
    disabled manager. Otherwise it consumes one packet id and transmits one
    frame of type TEXT with the message as payload; a message of 256 bytes
    or more is clamped to 256, which the [uint8_t] length turns into 0, so
    it is sent with an empty payload. *)
Theorem sendTextMessage_spec (mgr : LoRaManager) (message : list Z) (destId : Z) (tx_ok : bool) :
  let '(ok, mgr', evs) := sendTextMessage mgr message destId tx_ok in
  (_initialized mgr = false \/ _enabled mgr = false -> ok = false /\ mgr' = mgr /\ evs = [])
  /\ (_initialized mgr = true -> _enabled mgr = true ->
      ok = tx_ok /\ mgr' = set_packetCounter mgr (u16 (_packetCounter mgr + 1))
      /\ evs = [Sent (frame_of (mkPacket LORA_MSG_TEXT (_deviceId mgr) destId (_packetCounter mgr)
                 (if (List.length message <? 256)%nat then Z.of_nat (List.length message) else 0)
                 (if (List.length message <? 256)%nat then message else [])))]).
Proof.
  unfold sendTextMessage.
  destruct (_initialized mgr) eqn:Hi, (_enabled mgr) eqn:He; cbn [negb orb];
    try (split; [intros; auto | intros; discriminate]).
  unfold createPacket, sendPacket. cbn [set_packetCounter _initialized _enabled fst snd].
  rewrite Hi, He. cbn [negb orb].
  split; [intros [H|H]; discriminate|]. intros _ _.
  unfold LORA_MAX_PACKET_SIZE.
  destruct (Nat.ltb_spec (List.length message) 256) as [Hlt|Hge].
  - replace (Z.of_nat (List.length message) >? 256) with false
      by (symmetry; rewrite Z.gtb_ltb; apply Z.ltb_ge; lia).
    rewrite u8_small by lia. rewrite Nat2Z.id, !firstn_all. auto.
  - destruct (Z.of_nat (List.length message) >? 256) eqn:Hc.
    + replace (u8 256) with 0 by reflexivity. cbn [Z.to_nat firstn]. auto.
    + assert (Hm : List.length message = 256%nat) by (rewrite Z.gtb_ltb in Hc; apply Z.ltb_ge in Hc; lia).
      rewrite Hm. replace (u8 (Z.of_nat 256)) with 0 by reflexivity. cbn [Z.to_nat firstn]. auto.
Qed.

(** [saveConfig] writes the seven persisted settings, and [loadConfig]
    of that document restores exactly those settings, keeping the
    manager's other state. *)
Theorem save_load_round_trip (mgr mgr0 : LoRaManager) (defaultId : Z) :
  saveConfig mgr = [Saved (config_of mgr)] /\
  let '(ok, mgr1) := loadConfig mgr0 (Some (doc_of_config (config_of mgr))) defaultId in
  ok = true /\ config_of mgr1 = config_of mgr
  /\ _initialized mgr1 = _initialized mgr0 /\ _packetCounter mgr1 = _packetCounter mgr0
  /\ _lastRssi mgr1 = _lastRssi mgr0 /\ _lastSnr mgr1 = _lastSnr mgr0
  /\ _messageCallback mgr1 = _messageCallback mgr0.
Proof. split; [reflexivity|]. cbn. repeat split. Qed.

(** Disabling is not persistent across [init]: [setEnabled(false)]
    saves [enabled = false], and [loadConfig] of that document reads it
    back, but a successful [init] from it leaves the manager enabled. *)
Theorem init_reenables (mgr : LoRaManager) (defaultId : Z) :
  let '(mgr1, saved) := setEnabled mgr false in
  exists c, saved = [Saved c] /\ cfg_enabled c = false
  /\ _enabled (snd (loadConfig mgr1 (Some (doc_of_config c)) defaultId)) = false
  /\ (let '(ok, mgr2, _) := init mgr1 (Some (doc_of_config c)) defaultId true in
      ok = true /\ _enabled mgr2 = true).
Proof. cbn. eexists. repeat split. Qed.

(** [configure] before [init] only caches its values, unvalidated: a
    successful [init] then starts the radio with them when no
    configuration file loads, and replaces them with the file's values
    (or defaults) when one does. *)
Theorem configure_before_init (mgr : LoRaManager) (f bw sf cr sw : Z) (freq_ok : bool)
  (doc : option ConfigDoc) (defaultId : Z) :
  _initialized mgr = false ->
  let '(ok1, mgr1, evs1) := configure mgr f bw sf cr sw freq_ok in
  let '(ok2, mgr2, evs2) := init mgr1 doc defaultId true in
  ok1 = true /\ evs1 = [] /\ ok2 = true /\ _initialized mgr2 = true /\ _enabled mgr2 = true
  /\ evs2 = match doc with
            | None => [SetFrequency f; SetSignalBandwidth bw; SetSpreadingFactor sf;
                       SetCodingRate4 cr; SetSyncWord sw]
            | Some d => [SetFrequency (or_default (doc_frequency d) 915000000);
                         SetSignalBandwidth (or_default (doc_bandwidth d) 125000);
                         SetSpreadingFactor (or_default (doc_spreadingFactor d) 7);
                         SetCodingRate4 (or_default (doc_codingRate d) 5);
                         SetSyncWord (or_default (doc_syncWord d) 18)]
            end.
Proof.
  intros Hi. unfold configure. rewrite Hi. cbn [negb].
  destruct doc; cbn; repeat split.
Qed.

Ltac bytes_ok := repeat (apply Forall_cons; [unfold is_byte; lia|]); apply Forall_nil.

Lemma receive_round_trip_witness :
  let mgr := mkManager true true 2 7 915000000 125000 7 5 18 0 0 true in
  let p := mkPacket LORA_MSG_TEXT 5 2 300 2 [104; 105] in
  _initialized mgr = true /\ _enabled mgr = true /\
  (let '(mgr', evs) := update mgr (frame_of p) (-40) 7 in
   _lastRssi mgr' = -40 /\ _lastSnr mgr' = 7
   /\ evs = (if negb (destId p =? 65535) && negb (messageType p =? LORA_MSG_ACK)
             then [Sent (frame_of (ack_of mgr p))] else [])
            ++ (if _messageCallback mgr then [Dispatched p] else [])
   /\ _packetCounter mgr'
      = (if negb (destId p =? 65535) && negb (messageType p =? LORA_MSG_ACK)
         then u16 (_packetCounter mgr + 1) else _packetCounter mgr)).
Proof.
  intros mgr p.
  assert (Hi : _initialized mgr = true) by reflexivity.
  assert (He : _enabled mgr = true) by reflexivity.
  split; [exact Hi | split; [exact He|]].
  apply (receive_round_trip mgr p (-40) 7 Hi He); subst mgr p;
    try (unfold is_byte, LORA_MSG_TEXT; cbn [messageType sourceId destId packetId length payload
           List.length Z.of_nat _deviceId _packetCounter]; lia); try reflexivity.
  bytes_ok.
Defined.

Lemma ack_reaches_sender_witness :
  let mgrA := mkManager true true 5 0 915000000 125000 7 5 18 0 0 true in
  let mgrB := mkManager true true 2 7 915000000 125000 7 5 18 0 0 true in
  let p := mkPacket LORA_MSG_TEXT 5 2 300 2 [104; 105] in
  _initialized mgrB = true /\ _initialized mgrA = true /\
  exists ack,
    snd (update mgrB (frame_of p) (-40) 7)
      = Sent (frame_of ack) :: (if _messageCallback mgrB then [Dispatched p] else [])
    /\ messageType ack = LORA_MSG_ACK /\ destId ack = sourceId p
    /\ nth 0 (payload ack) 0 * 256 + nth 1 (payload ack) 0 = packetId p
    /\ update mgrA (frame_of ack) (-60) 3
       = (set_signal mgrA (-60) 3, if _messageCallback mgrA then [Dispatched ack] else []).
Proof.
  intros mgrA mgrB p.
  assert (HiB : _initialized mgrB = true) by reflexivity.
  assert (HiA : _initialized mgrA = true) by reflexivity.
  split; [exact HiB | split; [exact HiA|]].
  apply (ack_reaches_sender mgrA mgrB p (-40) 7 (-60) 3 HiB eq_refl HiA eq_refl);
    subst mgrA mgrB p;
    try (unfold is_byte, LORA_MSG_TEXT, LORA_MSG_ACK; cbn [messageType sourceId destId packetId
           length payload List.length Z.of_nat _deviceId _packetCounter]; lia); try reflexivity.
  bytes_ok.
Defined.

Lemma truncated_frame_dispatched_witness :
  let mgr := mkManager true true 2 7 915000000 125000 7 5 18 0 0 true in
  let p := mkPacket LORA_MSG_TEXT 5 2 300 10 [104; 105] in
  _messageCallback mgr = true /\ Z.of_nat (List.length (payload p)) < length p /\
  frame_of p = [messageType p; sourceId p / 256; sourceId p mod 256;
                destId p / 256; destId p mod 256; packetId p / 256; packetId p mod 256;
                length p] ++ payload p
  /\ In (Dispatched p) (snd (update mgr (frame_of p) (-40) 7)).
Proof.
  intros mgr p.
  assert (Hc : _messageCallback mgr = true) by reflexivity.
  assert (Hl : Z.of_nat (List.length (payload p)) < length p) by (cbn; lia).
  split; [exact Hc | split; [exact Hl|]].
  apply (truncated_frame_dispatched mgr p (-40) 7 eq_refl eq_refl Hc); try exact Hl;
    subst mgr p;
    try (unfold is_byte, LORA_MSG_TEXT; cbn [messageType sourceId destId packetId length payload
           List.length Z.of_nat _deviceId _packetCounter]; lia).
  bytes_ok.
Defined.

Lemma update_ignores_witness :
  let mgr := mkManager true true 2 7 915000000 125000 7 5 18 0 0 true in
  (List.length [0; 0; 2] < 8)%nat /\ update mgr [0; 0; 2] (-40) 7 = (mgr, []).
Proof.
  intros mgr.
  assert (H : (List.length [0; 0; 2] < 8)%nat) by (cbn; lia).
  split; [exact H | exact (update_ignores mgr [0; 0; 2] (-40) 7 (or_intror (or_intror H)))].
Defined.

Lemma sendTextMessage_spec_witness :
  let mgr := mkManager true true 2 7 915000000 125000 7 5 18 0 0 true in
  let msg := repeat 65 300 in
  _initialized mgr = true /\ _enabled mgr = true /\
  (let '(ok, mgr', evs) := sendTextMessage mgr msg 65535 true in
   (_initialized mgr = false \/ _enabled mgr = false -> ok = false /\ mgr' = mgr /\ evs = [])
   /\ (_initialized mgr = true -> _enabled mgr = true ->
       ok = true /\ mgr' = set_packetCounter mgr (u16 (_packetCounter mgr + 1))
       /\ evs = [Sent (frame_of (mkPacket LORA_MSG_TEXT (_deviceId mgr) 65535 (_packetCounter mgr)
                  (if (List.length msg <? 256)%nat then Z.of_nat (List.length msg) else 0)
                  (if (List.length msg <? 256)%nat then msg else [])))])).
Proof.
  intros mgr msg.
  assert (Hi : _initialized mgr = true) by reflexivity.
  assert (He : _enabled mgr = true) by reflexivity.
  split; [exact Hi | split; [exact He | exact (sendTextMessage_spec mgr msg 65535 true)]].
Defined.

Lemma configure_before_init_witness :
  let mgr := LoRaManager_new 4660 in
  _initialized mgr = false /\
  (let '(ok1, mgr1, evs1) := configure mgr 868000000 250000 99 5 52 true in
   let '(ok2, mgr2, evs2) := init mgr1 None 4660 true in
   ok1 = true /\ evs1 = [] /\ ok2 = true /\ _initialized mgr2 = true /\ _enabled mgr2 = true
   /\ evs2 = [SetFrequency 868000000; SetSignalBandwidth 250000; SetSpreadingFactor 99;
              SetCodingRate4 5; SetSyncWord 52]).
Proof.
  intros mgr.
  assert (Hi : _initialized mgr = false) by reflexivity.
  split; [exact Hi | exact (configure_before_init mgr 868000000 250000 99 5 52 true None 4660 Hi)].
Defined.

End CommsMore.
